(** * ZkSolvencyFHE: the confidential batch submission and decryption-oracle
      contract, embedded shallowly and verified against its specification.

    The contract is the Solidity source [ZkSolvencyFHE].  Storage is a
    record, mappings are finite maps read with the Solidity default, every
    external function is a computation in a small state-and-revert monad,
    and a transaction either commits the final storage or reverts to the
    storage it started from. *)

From Stdlib Require Import ZArith String.
From Stdlib.Strings Require Import Byte.
From stdpp Require Import base decidable option list sorting gmap.

Local Open Scope Z_scope.

(** ** Values *)

(** [address], [uint256], [bytes32] and the [euint32] handle (a [bytes32]
    underneath) are integers; [bytes] is a list of bytes. *)
Abbreviation address := Z (only parsing).
Abbreviation uint256 := Z (only parsing).
Abbreviation bytes32 := Z (only parsing).
Abbreviation euint32 := Z (only parsing).
Abbreviation bytes := (list byte) (only parsing).

Definition uint256_limit : Z := 2 ^ 256.
Definition uint32_limit : Z := 2 ^ 32.

Record LoanApplication := mkLoanApplication {
  encryptedAssets : euint32;
  encryptedLiabilities : euint32;
  encryptedSolvencyProof : euint32
}.

Record DecryptionContext := mkDecryptionContext {
  batchId : uint256;
  stateHash : bytes32;
  processed : bool
}.

Inductive Event :=
| OwnershipTransferred (previousOwner newOwner : address)
| ProviderAdded (provider : address)
| ProviderRemoved (provider : address)
| PauseToggled (p : bool)
| CooldownSecondsUpdated (oldCooldown newCooldown : uint256)
| BatchOpened (id : uint256)
| BatchClosed (id : uint256)
| LoanApplicationSubmitted (provider : address) (id : uint256)
    (assets liabilities solvencyProof : euint32)
| DecryptionRequested (requestId id : uint256)
| DecryptionCompleted (requestId id : uint256)
    (assets liabilities solvencyProof : Z).

(** The ten custom errors of the contract, the string revert of
    [_requireInitialized], the arithmetic panic of checked [uint256]
    arithmetic, and the data-less revert of a failed [abi.decode]. *)
Inductive Error :=
| NotOwner | NotProvider | Paused | CooldownActive | BatchNotOpen
| BatchAlreadyOpen | InvalidBatch | ReplayAttempt | StateMismatch
| DecryptionFailed
| ErrorString (reason : string)
| Panic (code : Z)
| RevertNoData.

(** ** Storage *)

Record State := mkState {
  owner : address;
  isProvider : gmap Z bool;
  paused : bool;
  cooldownSeconds : uint256;
  lastSubmissionTime : gmap Z Z;
  lastDecryptionRequestTime : gmap Z Z;
  currentBatchId : uint256;
  batchOpen : bool;
  loanApplications : gmap Z LoanApplication;
  decryptionContexts : gmap Z DecryptionContext;
  events : list Event
}.

(** A mapping read returns the zero value of the value type at a key that
    was never written. *)
Definition zeroLoanApplication : LoanApplication := mkLoanApplication 0 0 0.
Definition zeroDecryptionContext : DecryptionContext :=
  mkDecryptionContext 0 0 false.

Definition isProvider_at (s : State) (a : address) : bool :=
  default false (isProvider s !! a).
Definition lastSubmissionTime_at (s : State) (a : address) : uint256 :=
  default 0 (lastSubmissionTime s !! a).
Definition lastDecryptionRequestTime_at (s : State) (a : address) : uint256 :=
  default 0 (lastDecryptionRequestTime s !! a).
Definition loanApplications_at (s : State) (id : uint256) : LoanApplication :=
  default zeroLoanApplication (loanApplications s !! id).
Definition decryptionContexts_at (s : State) (rid : uint256)
  : DecryptionContext :=
  default zeroDecryptionContext (decryptionContexts s !! rid).

Definition set_owner (v : address) (s : State) : State :=
  mkState v (isProvider s) (paused s) (cooldownSeconds s)
    (lastSubmissionTime s) (lastDecryptionRequestTime s) (currentBatchId s)
    (batchOpen s) (loanApplications s) (decryptionContexts s) (events s).
Definition set_isProvider (a : address) (v : bool) (s : State) : State :=
  mkState (owner s) (<[a := v]> (isProvider s)) (paused s) (cooldownSeconds s)
    (lastSubmissionTime s) (lastDecryptionRequestTime s) (currentBatchId s)
    (batchOpen s) (loanApplications s) (decryptionContexts s) (events s).
Definition set_paused (v : bool) (s : State) : State :=
  mkState (owner s) (isProvider s) v (cooldownSeconds s)
    (lastSubmissionTime s) (lastDecryptionRequestTime s) (currentBatchId s)
    (batchOpen s) (loanApplications s) (decryptionContexts s) (events s).
Definition set_cooldownSeconds (v : uint256) (s : State) : State :=
  mkState (owner s) (isProvider s) (paused s) v
    (lastSubmissionTime s) (lastDecryptionRequestTime s) (currentBatchId s)
    (batchOpen s) (loanApplications s) (decryptionContexts s) (events s).
Definition set_lastSubmissionTime (a : address) (v : uint256) (s : State)
  : State :=
  mkState (owner s) (isProvider s) (paused s) (cooldownSeconds s)
    (<[a := v]> (lastSubmissionTime s)) (lastDecryptionRequestTime s)
    (currentBatchId s) (batchOpen s) (loanApplications s)
    (decryptionContexts s) (events s).
Definition set_lastDecryptionRequestTime (a : address) (v : uint256)
  (s : State) : State :=
  mkState (owner s) (isProvider s) (paused s) (cooldownSeconds s)
    (lastSubmissionTime s) (<[a := v]> (lastDecryptionRequestTime s))
    (currentBatchId s) (batchOpen s) (loanApplications s)
    (decryptionContexts s) (events s).
Definition set_currentBatchId (v : uint256) (s : State) : State :=
  mkState (owner s) (isProvider s) (paused s) (cooldownSeconds s)
    (lastSubmissionTime s) (lastDecryptionRequestTime s) v
    (batchOpen s) (loanApplications s) (decryptionContexts s) (events s).
Definition set_batchOpen (v : bool) (s : State) : State :=
  mkState (owner s) (isProvider s) (paused s) (cooldownSeconds s)
    (lastSubmissionTime s) (lastDecryptionRequestTime s) (currentBatchId s)
    v (loanApplications s) (decryptionContexts s) (events s).
Definition set_loanApplication (id : uint256) (v : LoanApplication)
  (s : State) : State :=
  mkState (owner s) (isProvider s) (paused s) (cooldownSeconds s)
    (lastSubmissionTime s) (lastDecryptionRequestTime s) (currentBatchId s)
    (batchOpen s) (<[id := v]> (loanApplications s)) (decryptionContexts s)
    (events s).
Definition set_decryptionContext (rid : uint256) (v : DecryptionContext)
  (s : State) : State :=
  mkState (owner s) (isProvider s) (paused s) (cooldownSeconds s)
    (lastSubmissionTime s) (lastDecryptionRequestTime s) (currentBatchId s)
    (batchOpen s) (loanApplications s) (<[rid := v]> (decryptionContexts s))
    (events s).
Definition add_event (e : Event) (s : State) : State :=
  mkState (owner s) (isProvider s) (paused s) (cooldownSeconds s)
    (lastSubmissionTime s) (lastDecryptionRequestTime s) (currentBatchId s)
    (batchOpen s) (loanApplications s) (decryptionContexts s)
    (events s ++ [e]).

(** ** The execution monad

    A computation runs on the storage and either finishes with a value, or
    hits a [revert].  [Abort] keeps the storage as it stood at the revert,
    so that what had been written before the revert stays visible to the
    proofs; the rollback is done by [call] below. *)

Inductive Outcome (A : Type) :=
| Done (a : A) (s : State)
| Abort (e : Error) (s : State).
Arguments Done {A} a s.
Arguments Abort {A} e s.

Definition M (A : Type) : Type := State -> Outcome A.

#[global] Instance M_ret : MRet M := fun A a s => Done a s.
#[global] Instance M_bind : MBind M := fun A B f m s =>
  match m s with
  | Done a s' => f a s'
  | Abort e s' => Abort e s'
  end.

Definition get : M State := fun s => Done s s.
Definition modify (f : State -> State) : M unit := fun s => Done tt (f s).
Definition revert {A} (e : Error) : M A := fun s => Abort e s.
Definition emit (e : Event) : M unit := modify (add_event e).

(** Checked [uint256] addition of Solidity 0.8: overflow is [Panic(0x11)]. *)
Definition checked_add (a b : uint256) : M uint256 :=
  if decide (a + b < uint256_limit) then mret (a + b) else revert (Panic 17).

(** ** Transaction environment *)

(** [oracle_requestId] is the identifier that [FHE.requestDecryption] hands
    back when the transaction dispatches a request: the oracle chooses it. *)
Record Env := mkEnv {
  msg_sender : address;
  block_timestamp : uint256;
  oracle_requestId : uint256
}.

(** ** The FHE library and the oracle

    The contract reaches four things outside its own source: the hash
    [keccak256(abi.encode(bytes32[], address))], the oracle's signature
    check [FHE.checkSignatures], the trivial encryption [FHE.asEuint32], and
    its own address [address(this)].  They form the interface the contract
    is deployed against. *)

Class Platform := mkPlatform {
  keccak256_encode : list bytes32 -> address -> bytes32;
  checkSignatures : uint256 -> bytes -> bytes -> bool;
  asEuint32 : Z -> euint32;
  this : address
}.

Section Contract.

Context {platform : Platform}.

(** Modelled from the spec: [FHE.isInitialized] is not part of the contract
    source; the spec calls a handle initialized when it is non-null, and the
    null handle is the zero word, which is also what an unwritten record
    reads as. *)
Definition isInitialized (v : euint32) : bool := bool_decide (v <> 0).

(** [FHE.toBytes32] unwraps the handle; handles are already words here. *)
Definition toBytes32 (v : euint32) : bytes32 := v.

(** Modelled from the spec: [bytes.slice] is not part of the contract
    source; the spec fixes byte offsets [0,32), [32,64), [64,96) of the
    payload, and a range that leaves the payload reverts. *)
Definition slice (b : bytes) (start len : nat) : option bytes :=
  if decide (start + len <= length b)%nat
  then Some (take len (drop start b)) else None.

Definition be_value (b : bytes) : Z :=
  fold_left (fun acc x => acc * 256 + Z.of_N (Byte.to_N x)) b 0.

(** [abi.decode(word, (uint32))]: one 32-byte big-endian word whose value
    fits 32 bits; anything else reverts without data. *)
Definition uint32_word (word : option bytes) : option Z :=
  match word with
  | Some w =>
      if decide (length w = 32%nat /\ be_value w < uint32_limit)
      then Some (be_value w) else None
  | None => None
  end.

Definition abi_decode_uint32 (word : option bytes) : M Z :=
  match uint32_word word with
  | Some v => mret v
  | None => revert RevertNoData
  end.

(** *** Modifiers *)

Definition onlyOwner (env : Env) : M unit :=
  s ← get;
  if decide (msg_sender env <> owner s) then revert NotOwner else mret tt.

Definition onlyProvider (env : Env) : M unit :=
  s ← get;
  if negb (isProvider_at s (msg_sender env)) then revert NotProvider
  else mret tt.

Definition whenNotPaused : M unit :=
  s ← get;
  if paused s then revert Paused else mret tt.

Definition checkSubmissionCooldown (env : Env) (_provider : address) : M unit :=
  s ← get;
  deadline ← checked_add (lastSubmissionTime_at s _provider)
                         (cooldownSeconds s);
  if decide (block_timestamp env < deadline) then revert CooldownActive
  else mret tt.

Definition checkDecryptionCooldown (env : Env) (_provider : address) : M unit :=
  s ← get;
  deadline ← checked_add (lastDecryptionRequestTime_at s _provider)
                         (cooldownSeconds s);
  if decide (block_timestamp env < deadline) then revert CooldownActive
  else mret tt.

(** *** Internal functions *)

Definition _hashCiphertexts (cts : list euint32) : bytes32 :=
  let ctsAsBytes := map toBytes32 cts in
  keccak256_encode ctsAsBytes this.

(** [FHE.asEuint32(0)] asks the coprocessor for a fresh handle; the handle
    is dropped and the contract's storage is not touched. *)
Definition _initIfNeeded (val : euint32) : M unit :=
  if negb (isInitialized val) then _ ← mret (asEuint32 0); mret tt
  else mret tt.

Definition _requireInitialized (val : euint32) : M unit :=
  if negb (isInitialized val)
  then revert (ErrorString "Ciphertext not initialized")
  else mret tt.

(** *** Constructor and external functions *)

Definition constructor (deployer : address) : State :=
  mkState deployer ∅ false 60 ∅ ∅ 0 false ∅ ∅
    [OwnershipTransferred 0 deployer].

Definition transferOwnership (env : Env) (newOwner : address) : M unit :=
  onlyOwner env;;
  s ← get;
  let previousOwner := owner s in
  modify (set_owner newOwner);;
  emit (OwnershipTransferred previousOwner newOwner).

Definition addProvider (env : Env) (provider : address) : M unit :=
  onlyOwner env;;
  s ← get;
  if negb (isProvider_at s provider) then
    modify (set_isProvider provider true);;
    emit (ProviderAdded provider)
  else mret tt.

Definition removeProvider (env : Env) (provider : address) : M unit :=
  onlyOwner env;;
  s ← get;
  if isProvider_at s provider then
    modify (set_isProvider provider false);;
    emit (ProviderRemoved provider)
  else mret tt.

Definition setPaused (env : Env) (_paused : bool) : M unit :=
  onlyOwner env;;
  modify (set_paused _paused);;
  emit (PauseToggled _paused).

Definition setCooldownSeconds (env : Env) (newCooldownSeconds : uint256)
  : M unit :=
  onlyOwner env;;
  s ← get;
  let oldCooldown := cooldownSeconds s in
  modify (set_cooldownSeconds newCooldownSeconds);;
  emit (CooldownSecondsUpdated oldCooldown newCooldownSeconds).

Definition openBatch (env : Env) : M unit :=
  onlyOwner env;;
  whenNotPaused;;
  s ← get;
  if batchOpen s then revert BatchAlreadyOpen else
  next ← checked_add (currentBatchId s) 1;
  modify (set_currentBatchId next);;
  modify (set_batchOpen true);;
  emit (BatchOpened next).

Definition closeBatch (env : Env) : M unit :=
  onlyOwner env;;
  whenNotPaused;;
  s ← get;
  if negb (batchOpen s) then revert BatchNotOpen else
  modify (set_batchOpen false);;
  emit (BatchClosed (currentBatchId s)).

Definition submitLoanApplication (env : Env)
  (encryptedAssets encryptedLiabilities encryptedSolvencyProof : euint32)
  : M unit :=
  onlyProvider env;;
  whenNotPaused;;
  checkSubmissionCooldown env (msg_sender env);;
  s ← get;
  if negb (batchOpen s) then revert BatchNotOpen else
  _initIfNeeded encryptedAssets;;
  _initIfNeeded encryptedLiabilities;;
  _initIfNeeded encryptedSolvencyProof;;
  modify (set_loanApplication (currentBatchId s)
            (mkLoanApplication encryptedAssets encryptedLiabilities
                               encryptedSolvencyProof));;
  modify (set_lastSubmissionTime (msg_sender env) (block_timestamp env));;
  emit (LoanApplicationSubmitted (msg_sender env) (currentBatchId s)
          encryptedAssets encryptedLiabilities encryptedSolvencyProof).

Definition requestLoanApproval (env : Env) (bid : uint256) : M unit :=
  onlyProvider env;;
  whenNotPaused;;
  checkDecryptionCooldown env (msg_sender env);;
  s ← get;
  if decide (bid = 0 \/ bid > currentBatchId s) then revert InvalidBatch else
  let app := loanApplications_at s bid in
  _requireInitialized (encryptedAssets app);;
  _requireInitialized (encryptedLiabilities app);;
  _requireInitialized (encryptedSolvencyProof app);;
  let ctsToHash := [encryptedAssets app; encryptedLiabilities app;
                    encryptedSolvencyProof app] in
  let stateHash := _hashCiphertexts ctsToHash in
  let requestId := oracle_requestId env in
  modify (set_decryptionContext requestId
            (mkDecryptionContext bid stateHash false));;
  modify (set_lastDecryptionRequestTime (msg_sender env)
            (block_timestamp env));;
  emit (DecryptionRequested requestId bid).

Definition myCallback (requestId : uint256) (cleartexts proof : bytes)
  : M unit :=
  s ← get;
  let ctx := decryptionContexts_at s requestId in
  if processed ctx then revert ReplayAttempt else
  let bid := batchId ctx in
  if decide (bid = 0 \/ bid > currentBatchId s) then revert InvalidBatch else
  let app := loanApplications_at s bid in
  let ctsToHash := [encryptedAssets app; encryptedLiabilities app;
                    encryptedSolvencyProof app] in
  let currentHash := _hashCiphertexts ctsToHash in
  if decide (currentHash <> stateHash ctx) then revert StateMismatch else
  if negb (checkSignatures requestId cleartexts proof)
  then revert DecryptionFailed else
  assets ← abi_decode_uint32 (slice cleartexts 0 32);
  liabilities ← abi_decode_uint32 (slice cleartexts 32 32);
  solvencyProof ← abi_decode_uint32 (slice cleartexts 64 32);
  modify (set_decryptionContext requestId
            (mkDecryptionContext (batchId ctx) (stateHash ctx) true));;
  emit (DecryptionCompleted requestId bid assets liabilities solvencyProof).

(** ** Transactions *)

Inductive Call :=
| TransferOwnership (newOwner : address)
| AddProvider (provider : address)
| RemoveProvider (provider : address)
| SetPaused (_paused : bool)
| SetCooldownSeconds (newCooldownSeconds : uint256)
| OpenBatch
| CloseBatch
| SubmitLoanApplication (assets liabilities solvencyProof : euint32)
| RequestLoanApproval (bid : uint256)
| MyCallback (requestId : uint256) (cleartexts proof : bytes).

Definition dispatch (env : Env) (c : Call) : M unit :=
  match c with
  | TransferOwnership a => transferOwnership env a
  | AddProvider p => addProvider env p
  | RemoveProvider p => removeProvider env p
  | SetPaused b => setPaused env b
  | SetCooldownSeconds n => setCooldownSeconds env n
  | OpenBatch => openBatch env
  | CloseBatch => closeBatch env
  | SubmitLoanApplication a l p => submitLoanApplication env a l p
  | RequestLoanApproval bid => requestLoanApproval env bid
  | MyCallback rid ct pf => myCallback rid ct pf
  end.

Inductive Result :=
| Ok (s : State)
| Revert (e : Error).

(** A transaction commits the storage the body finished with, or reverts. *)
Definition call (env : Env) (c : Call) (s : State) : Result :=
  match dispatch env c s with
  | Done _ s' => Ok s'
  | Abort e _ => Revert e
  end.

(** The storage after the transaction: a revert rolls back to [s]. *)
Definition exec (s : State) (tx : Env * Call) : State :=
  match call tx.1 tx.2 s with
  | Ok s' => s'
  | Revert _ => s
  end.

Definition run (s : State) (txs : list (Env * Call)) : State :=
  fold_left exec txs s.

End Contract.

(** ** The specification's vocabulary

    The specification names failures by condition.  [spec_name] reads each
    revert of the contract under the specification's name for it; the
    arithmetic panic and the data-less revert have none. *)

Module Spec.
Inductive error :=
| Unauthorized | SystemPaused | RateLimited | BatchAlreadyOpen | BatchNotOpen
| InvalidBatch | RecordIncomplete | UnknownRequest | ReplayAttempt
| StateMismatch | DecryptionFailed.
End Spec.

Definition spec_name (e : Error) : option Spec.error :=
  match e with
  | NotOwner | NotProvider => Some Spec.Unauthorized
  | Paused => Some Spec.SystemPaused
  | CooldownActive => Some Spec.RateLimited
  | BatchNotOpen => Some Spec.BatchNotOpen
  | BatchAlreadyOpen => Some Spec.BatchAlreadyOpen
  | InvalidBatch => Some Spec.InvalidBatch
  | ReplayAttempt => Some Spec.ReplayAttempt
  | StateMismatch => Some Spec.StateMismatch
  | DecryptionFailed => Some Spec.DecryptionFailed
  | ErrorString reason =>
      if String.eqb reason "Ciphertext not initialized"
      then Some Spec.RecordIncomplete else None
  | Panic _ | RevertNoData => None
  end.

(** ** Observations on the event log and on traces *)

Section Observations.

Context {platform : Platform}.

Definition opened_id (e : Event) : option uint256 :=
  match e with BatchOpened id => Some id | _ => None end.

(** The batch ids announced by [BatchOpened], oldest first. *)
Definition opened_ids (l : list Event) : list uint256 := omap opened_id l.

Definition is_completion (rid : uint256) (e : Event) : bool :=
  match e with
  | DecryptionCompleted r _ _ _ _ => bool_decide (r = rid)
  | _ => false
  end.

(** How many [DecryptionCompleted] events the log holds for [rid]. *)
Definition completed_count (rid : uint256) (l : list Event) : nat :=
  length (filter (fun e => is_completion rid e = true) l).

Definition request_id (tx : Env * Call) : option uint256 :=
  match tx.2 with
  | RequestLoanApproval _ => Some (oracle_requestId tx.1)
  | _ => None
  end.

(** The identifiers the oracle hands to the request transactions of a
    trace. *)
Definition request_ids (txs : list (Env * Call)) : list uint256 :=
  omap request_id txs.

Definition is_callback_for (rid : uint256) (c : Call) : bool :=
  match c with
  | MyCallback r _ _ => bool_decide (r = rid)
  | _ => false
  end.

Definition owner_only (c : Call) : bool :=
  match c with
  | TransferOwnership _ | AddProvider _ | RemoveProvider _ | SetPaused _
  | SetCooldownSeconds _ | OpenBatch | CloseBatch => true
  | _ => false
  end.

(** The three handles of the record of batch [bid], in hashing order. *)
Definition handles (s : State) (bid : uint256) : list euint32 :=
  let app := loanApplications_at s bid in
  [encryptedAssets app; encryptedLiabilities app; encryptedSolvencyProof app].

(** A payload is well formed when its three 32-byte words decode. *)
Definition decodeCleartexts (cleartexts : bytes) : option (Z * Z * Z) :=
  a ← uint32_word (slice cleartexts 0 32);
  l ← uint32_word (slice cleartexts 32 32);
  p ← uint32_word (slice cleartexts 64 32);
  Some (a, l, p).

(** The two invariants of the event log.  [batch_log_sorted]: the announced
    batch ids increase strictly and none exceeds the counter.
    [log_consistent]: a stored context was issued by the oracle, and the log
    holds one completion for a processed context and none otherwise. *)
Definition batch_log_sorted (s : State) : Prop :=
  StronglySorted Z.lt (opened_ids (events s))
  /\ Forall (fun id => id <= currentBatchId s) (opened_ids (events s)).

Definition log_consistent (s : State) (issued : list uint256) : Prop :=
  forall rid,
    (is_Some (decryptionContexts s !! rid) -> rid ∈ issued)
    /\ completed_count rid (events s) =
       (if processed (decryptionContexts_at s rid) then 1 else 0)%nat.

(** What a successful call has done, operation by operation: the storage
    it wrote and the event it appended.  [addProvider] on a provider and
    [removeProvider] on a non-provider are the two successes that write
    nothing and emit nothing. *)
Definition effect (env : Env) (c : Call) (s s' : State) : Prop :=
  match c with
  | TransferOwnership a =>
      owner s' = a /\ events s' = events s ++ [OwnershipTransferred (owner s) a]
  | AddProvider p =>
      (isProvider_at s p = false ->
         isProvider_at s' p = true /\ events s' = events s ++ [ProviderAdded p])
      /\ (isProvider_at s p = true -> s' = s)
  | RemoveProvider p =>
      (isProvider_at s p = true ->
         isProvider_at s' p = false
         /\ events s' = events s ++ [ProviderRemoved p])
      /\ (isProvider_at s p = false -> s' = s)
  | SetPaused b =>
      paused s' = b /\ events s' = events s ++ [PauseToggled b]
  | SetCooldownSeconds n =>
      cooldownSeconds s' = n
      /\ events s' = events s ++ [CooldownSecondsUpdated (cooldownSeconds s) n]
  | OpenBatch =>
      currentBatchId s' = currentBatchId s + 1 /\ batchOpen s' = true
      /\ events s' = events s ++ [BatchOpened (currentBatchId s + 1)]
  | CloseBatch =>
      batchOpen s' = false
      /\ events s' = events s ++ [BatchClosed (currentBatchId s)]
  | SubmitLoanApplication a l p =>
      loanApplications_at s' (currentBatchId s) = mkLoanApplication a l p
      /\ lastSubmissionTime_at s' (msg_sender env) = block_timestamp env
      /\ events s' = events s ++
           [LoanApplicationSubmitted (msg_sender env) (currentBatchId s) a l p]
  | RequestLoanApproval bid =>
      decryptionContexts_at s' (oracle_requestId env) =
        mkDecryptionContext bid (_hashCiphertexts (handles s bid)) false
      /\ lastDecryptionRequestTime_at s' (msg_sender env) = block_timestamp env
      /\ events s' = events s
                      ++ [DecryptionRequested (oracle_requestId env) bid]
  | MyCallback rid ct pf =>
      processed (decryptionContexts_at s' rid) = true
      /\ exists a l p, decodeCleartexts ct = Some (a, l, p)
         /\ events s' = events s ++
              [DecryptionCompleted rid (batchId (decryptionContexts_at s rid))
                 a l p]
  end.

End Observations.

(** ** A concrete deployment

    A deployment with a toy hash and a verifier that accepts the one-byte
    proof [0x2a], and the scenario of the specification: the owner (address
    1) registers provider 2 and opens batch 1, the provider submits three
    handles and requests their decryption, the oracle answers under request
    identifier 7. *)

Module Demo.

Definition platform : Platform :=
  mkPlatform (fun hs a => fold_left (fun acc h => acc * 31 + h) hs a)
             (fun _ _ pf => match pf with [x2a] => true | _ => false end)
             (fun _ => 1)
             99.

Definition env (sender now rid : Z) : Env := mkEnv sender now rid.

Definition word (b : byte) : bytes := replicate 31 x00 ++ [b].

(** 96 bytes: assets 5, liabilities 3, solvency indicator 1. *)
Definition cleartexts : bytes := word x05 ++ word x03 ++ word x01.

Definition setup : list (Env * Call) :=
  [(env 1 100 0, AddProvider 2);
   (env 1 100 0, OpenBatch);
   (env 2 100 0, SubmitLoanApplication 11 12 13)].

Definition request : Env * Call := (env 2 100 7, RequestLoanApproval 1).

Definition callback : Env * Call :=
  (env 9 300 0, MyCallback 7 cleartexts [x2a]).

Definition deployed : State := constructor 1.

Definition submitted : State := run (platform := platform) deployed setup.

Definition requested : State :=
  exec (platform := platform) submitted request.

(** The owner has registered the provider and opened batch 1. *)
Definition opened : State := run (platform := platform) deployed (take 2 setup).

(** The owner pauses the system after the submission. *)
Definition halted : State :=
  exec (platform := platform) submitted (env 1 120 0, SetPaused true).

(** Open, close, open again: batches 1 and 2. *)
Definition batch_calls : list (Env * Call) :=
  [(env 1 100 0, OpenBatch); (env 1 110 0, CloseBatch);
   (env 1 120 0, OpenBatch)].

(** A second submission lands on batch 1 while request 7 is in flight. *)
Definition resubmission : Env * Call :=
  (env 2 200 0, SubmitLoanApplication 21 22 23).

(** The owner closes batch 1 after the submission. *)
Definition sealed : State :=
  exec (platform := platform) submitted (env 1 150 0, CloseBatch).

(** What the provider and the oracle do, the owner staying away. *)
Definition provider_activity : list (Env * Call) :=
  [request; resubmission; callback; (env 2 120 0, OpenBatch);
   (env 2 130 0, SetPaused true); (env 2 140 0, TransferOwnership 2)].

(** Calls by addresses that are neither the owner nor a provider. *)
Definition stranger_activity : list (Env * Call) :=
  [(env 5 200 0, OpenBatch); (env 5 210 0, SubmitLoanApplication 1 2 3);
   (env 6 220 9, RequestLoanApproval 1); (env 6 230 0, AddProvider 6);
   (env 5 240 0, MyCallback 3 cleartexts [x2a])].

End Demo.

(** ** Reading the storage back from the event log *)

Definition closed_id (e : Event) : option uint256 :=
  match e with BatchClosed id => Some id | _ => None end.

(** The batch ids announced by [BatchClosed], oldest first. *)
Definition closed_ids (l : list Event) : list uint256 := omap closed_id l.

(** The part of the storage that the events describe: the owner, the
    provider flags, the pause flag, the cooldown, the batch counter with
    its open flag, and the loan records. *)
Record View := mkView {
  v_owner : address;
  v_isProvider : gmap Z bool;
  v_paused : bool;
  v_cooldownSeconds : uint256;
  v_currentBatchId : uint256;
  v_batchOpen : bool;
  v_loanApplications : gmap Z LoanApplication
}.

Definition view_of (s : State) : View :=
  mkView (owner s) (isProvider s) (paused s) (cooldownSeconds s)
    (currentBatchId s) (batchOpen s) (loanApplications s).

(** What an observer of the log learns from one event. *)
Definition apply_event (v : View) (e : Event) : View :=
  match e with
  | OwnershipTransferred _ newOwner =>
      mkView newOwner (v_isProvider v) (v_paused v) (v_cooldownSeconds v)
        (v_currentBatchId v) (v_batchOpen v) (v_loanApplications v)
  | ProviderAdded p =>
      mkView (v_owner v) (<[p := true]> (v_isProvider v)) (v_paused v)
        (v_cooldownSeconds v) (v_currentBatchId v) (v_batchOpen v)
        (v_loanApplications v)
  | ProviderRemoved p =>
      mkView (v_owner v) (<[p := false]> (v_isProvider v)) (v_paused v)
        (v_cooldownSeconds v) (v_currentBatchId v) (v_batchOpen v)
        (v_loanApplications v)
  | PauseToggled b =>
      mkView (v_owner v) (v_isProvider v) b (v_cooldownSeconds v)
        (v_currentBatchId v) (v_batchOpen v) (v_loanApplications v)
  | CooldownSecondsUpdated _ newCooldown =>
      mkView (v_owner v) (v_isProvider v) (v_paused v) newCooldown
        (v_currentBatchId v) (v_batchOpen v) (v_loanApplications v)
  | BatchOpened id =>
      mkView (v_owner v) (v_isProvider v) (v_paused v) (v_cooldownSeconds v)
        id true (v_loanApplications v)
  | BatchClosed _ =>
      mkView (v_owner v) (v_isProvider v) (v_paused v) (v_cooldownSeconds v)
        (v_currentBatchId v) false (v_loanApplications v)
  | LoanApplicationSubmitted _ id a l p =>
      mkView (v_owner v) (v_isProvider v) (v_paused v) (v_cooldownSeconds v)
        (v_currentBatchId v) (v_batchOpen v)
        (<[id := mkLoanApplication a l p]> (v_loanApplications v))
  | DecryptionRequested _ _ | DecryptionCompleted _ _ _ _ _ => v
  end.

(** The view before the first event: the constructor's cooldown of 60 is
    the one value that no event announces. *)
Definition blank_view : View := mkView 0 ∅ false 60 0 false ∅.

Definition replay (l : list Event) : View := fold_left apply_event l blank_view.

(** Every stored context points at a batch that exists, and its request
    was announced. *)
Definition contexts_valid (s : State) : Prop :=
  forall rid ctx,
    decryptionContexts s !! rid = Some ctx ->
    batchId ctx <> 0 /\ batchId ctx <= currentBatchId s
    /\ DecryptionRequested rid (batchId ctx) ∈ events s.

(** Every completion in the log comes after the request it answers and
    carries three 32-bit values. *)
Definition completions_answer_requests (l : list Event) : Prop :=
  forall l1 l2 rid bid a b c,
    l = l1 ++ DecryptionCompleted rid bid a b c :: l2 ->
    DecryptionRequested rid bid ∈ l1
    /\ 0 <= a < uint32_limit /\ 0 <= b < uint32_limit
    /\ 0 <= c < uint32_limit.

(** The batch log is the counter spelled out: batches 1 to [currentBatchId]
    were opened in order, and all but an open last one were closed. *)
Definition batch_log_exact (s : State) : Prop :=
  0 <= currentBatchId s
  /\ opened_ids (events s) = seqZ 1 (currentBatchId s)
  /\ opened_ids (events s) =
     closed_ids (events s)
     ++ (if batchOpen s then [currentBatchId s] else []).

(** Batch [bid] can no longer receive a submission. *)
Definition batch_sealed (s : State) (bid : uint256) : Prop :=
  bid < currentBatchId s \/ (bid = currentBatchId s /\ batchOpen s = false).

Definition is_callback (c : Call) : bool :=
  match c with MyCallback _ _ _ => true | _ => false end.

(** ** Proof machinery *)

Ltac unfold_contract :=
  cbv beta iota zeta delta
    [call exec dispatch transferOwnership addProvider removeProvider setPaused
     setCooldownSeconds openBatch closeBatch submitLoanApplication
     requestLoanApproval myCallback onlyOwner onlyProvider whenNotPaused
     checkSubmissionCooldown checkDecryptionCooldown _initIfNeeded
     _requireInitialized abi_decode_uint32 checked_add get modify revert emit
     mbind M_bind mret M_ret fst snd] in *.

Ltac split_step :=
  match goal with
  | |- context [decide ?P] => destruct (decide P)
  | |- context [if negb ?b then _ else _] => destruct b eqn:?
  | |- context [if ?b then _ else _] => destruct b eqn:?
  | |- context [match uint32_word ?w with _ => _ end] =>
      destruct (uint32_word w) eqn:?
  end; cbn [negb] in *.

Ltac run_contract := unfold_contract; repeat split_step.

Section Steps.

Context {platform : Platform}.

Lemma callback_default_context (s : State) (rid : uint256) :
  decryptionContexts s !! rid = None ->
  decryptionContexts_at s rid = zeroDecryptionContext.
Proof. intros H. unfold decryptionContexts_at. by rewrite H. Qed.

Lemma decodeCleartexts_words (ct : bytes) (a l p : Z) :
  decodeCleartexts ct = Some (a, l, p) <->
  uint32_word (slice ct 0 32) = Some a
  /\ uint32_word (slice ct 32 32) = Some l
  /\ uint32_word (slice ct 64 32) = Some p.
Proof.
  unfold decodeCleartexts.
  destruct (uint32_word (slice ct 0 32)) as [a'|]; cbn;
    [|split; [done | by intros [? _]]].
  destruct (uint32_word (slice ct 32 32)) as [l'|]; cbn;
    [|split; [done | by intros (_ & ? & _)]].
  destruct (uint32_word (slice ct 64 32)) as [p'|]; cbn;
    [|split; [done | by intros (_ & _ & ?)]].
  split; [intros [= -> -> ->]; done | intros ([= ->] & [= ->] & [= ->]); done].
Qed.

(** The callback on a pending context whose commitment matches, with a
    verified proof and a payload that decodes, commits: the context is
    marked processed and one completion event is appended. *)
Lemma myCallback_commits (s : State) (env : Env) (rid : uint256)
    (ct pf : bytes) (a l p : Z) :
  let ctx := decryptionContexts_at s rid in
  processed ctx = false ->
  batchId ctx <> 0 /\ batchId ctx <= currentBatchId s ->
  _hashCiphertexts (handles s (batchId ctx)) = stateHash ctx ->
  checkSignatures rid ct pf = true ->
  decodeCleartexts ct = Some (a, l, p) ->
  call env (MyCallback rid ct pf) s =
    Ok (add_event (DecryptionCompleted rid (batchId ctx) a l p)
          (set_decryptionContext rid
             (mkDecryptionContext (batchId ctx) (stateHash ctx) true) s)).
Proof.
  intros ctx Hproc Hrange Hhash Hsig Hdec.
  apply decodeCleartexts_words in Hdec as (Ha & Hl & Hp).
  subst ctx. unfold handles in Hhash.
  unfold_contract. rewrite Hproc, Hsig, Ha, Hl, Hp. cbn [negb].
  repeat split_step; try done; lia.
Qed.

(** The same callback over a payload that does not decode reverts in
    [abi.decode], before the context is marked: the context stays pending. *)
Lemma myCallback_malformed (s : State) (env : Env) (rid : uint256)
    (ct pf : bytes) :
  let ctx := decryptionContexts_at s rid in
  processed ctx = false ->
  batchId ctx <> 0 /\ batchId ctx <= currentBatchId s ->
  _hashCiphertexts (handles s (batchId ctx)) = stateHash ctx ->
  checkSignatures rid ct pf = true ->
  decodeCleartexts ct = None ->
  call env (MyCallback rid ct pf) s = Revert RevertNoData.
Proof.
  intros ctx Hproc Hrange Hhash Hsig Hdec.
  subst ctx. unfold handles in Hhash. unfold decodeCleartexts in Hdec.
  unfold_contract. rewrite Hproc, Hsig. cbn [negb].
  repeat split_step; try done; lia.
Qed.

Lemma myCallback_replay (s : State) (env : Env) (rid : uint256)
    (ct pf : bytes) :
  processed (decryptionContexts_at s rid) = true ->
  call env (MyCallback rid ct pf) s = Revert ReplayAttempt.
Proof. intros H. unfold_contract. by rewrite H. Qed.

Lemma myCallback_mismatch (s : State) (env : Env) (rid : uint256)
    (ct pf : bytes) :
  let ctx := decryptionContexts_at s rid in
  processed ctx = false ->
  batchId ctx <> 0 /\ batchId ctx <= currentBatchId s ->
  _hashCiphertexts (handles s (batchId ctx)) <> stateHash ctx ->
  call env (MyCallback rid ct pf) s = Revert StateMismatch.
Proof.
  intros ctx Hproc Hrange Hhash. subst ctx. unfold handles in Hhash.
  unfold_contract. rewrite Hproc. repeat split_step; try done; lia.
Qed.

(** What a committed request has written. *)
Lemma requestLoanApproval_commits (s s' : State) (env : Env) (bid : uint256) :
  call env (RequestLoanApproval bid) s = Ok s' ->
  (bid <> 0 /\ bid <= currentBatchId s)
  /\ s' = add_event (DecryptionRequested (oracle_requestId env) bid)
            (set_lastDecryptionRequestTime (msg_sender env)
               (block_timestamp env)
               (set_decryptionContext (oracle_requestId env)
                  (mkDecryptionContext bid (_hashCiphertexts (handles s bid))
                     false) s)).
Proof.
  run_contract; intros [= <-]. split; [lia | done].
Qed.

(** What a committed submission has written. *)
Lemma submitLoanApplication_commits (s s' : State) (env : Env)
    (a l p : euint32) :
  call env (SubmitLoanApplication a l p) s = Ok s' ->
  s' = add_event (LoanApplicationSubmitted (msg_sender env) (currentBatchId s)
                    a l p)
         (set_lastSubmissionTime (msg_sender env) (block_timestamp env)
            (set_loanApplication (currentBatchId s)
               (mkLoanApplication a l p) s)).
Proof. run_contract; by intros [= <-]. Qed.

End Steps.

Section Traces.

Context {platform : Platform}.

Implicit Types (s : State) (tx : Env * Call) (txs : list (Env * Call)).

Lemma run_cons s tx txs : run s (tx :: txs) = run (exec s tx) txs.
Proof. reflexivity. Qed.

Lemma completed_count_snoc (rid : uint256) (l : list Event) (e : Event) :
  completed_count rid (l ++ [e]) =
  (completed_count rid l + if is_completion rid e then 1 else 0)%nat.
Proof.
  unfold completed_count. rewrite filter_app, length_app. f_equal.
  destruct (is_completion rid e) eqn:E.
  - by rewrite filter_cons_True.
  - rewrite filter_cons_False; [done | congruence].
Qed.

Lemma opened_ids_snoc (l : list Event) (e : Event) :
  opened_ids (l ++ [e])
  = opened_ids l ++ from_option (fun id => [id]) [] (opened_id e).
Proof. unfold opened_ids. rewrite omap_app. cbn. by destruct (opened_id e). Qed.

(** *** Ownership *)

Lemma exec_owner_stranger s tx :
  msg_sender tx.1 <> owner s -> owner (exec s tx) = owner s.
Proof.
  destruct tx as [env c]; cbn [fst]; intros Hne.
  destruct c; run_contract; done.
Qed.

Lemma run_owner_zero s txs :
  owner s = 0 -> Forall (fun tx => msg_sender tx.1 <> 0) txs ->
  owner (run s txs) = 0.
Proof.
  revert s. induction txs as [|tx txs IH]; intros s Hs Hall; [done|].
  inversion Hall as [|? ? Htx Hrest]; subst. rewrite run_cons.
  apply IH; [|done]. rewrite exec_owner_stranger; congruence.
Qed.

Lemma owner_only_stranger s env (c : Call) :
  owner_only c = true -> msg_sender env <> owner s ->
  call env c s = Revert NotOwner.
Proof. intros Hc Hne. destruct c; try done; run_contract; done. Qed.

(** *** The batch counter *)

Lemma exec_currentBatchId_mono s tx :
  currentBatchId s <= currentBatchId (exec s tx).
Proof.
  destruct tx as [env c]. destruct c; run_contract; cbn; lia.
Qed.

Lemma run_currentBatchId_mono s txs :
  currentBatchId s <= currentBatchId (run s txs).
Proof.
  revert s. induction txs as [|tx txs IH]; intros s; [done|].
  rewrite run_cons. etrans; [apply (exec_currentBatchId_mono s tx) | apply IH].
Qed.

Lemma exec_batch_log_sorted s tx :
  batch_log_sorted s -> batch_log_sorted (exec s tx).
Proof.
  intros [Hsorted Hbound]. destruct tx as [env c].
  destruct c; run_contract; unfold batch_log_sorted; cbn;
    rewrite ?opened_ids_snoc; cbn; rewrite ?app_nil_r; try done.
  split.
  - apply StronglySorted_app_2; [|done|repeat constructor].
    intros x1 x2 Hx1 ->%list_elem_of_singleton.
    rewrite Forall_forall in Hbound. specialize (Hbound _ Hx1). lia.
  - rewrite Forall_app, Forall_singleton. split; [|lia].
    eapply Forall_impl; [exact Hbound|]. cbn. intros; lia.
Qed.

Lemma run_batch_log_sorted s txs :
  batch_log_sorted s -> batch_log_sorted (run s txs).
Proof.
  revert s. induction txs as [|tx txs IH]; intros s Hs; [done|].
  rewrite run_cons. by apply IH, exec_batch_log_sorted.
Qed.

Lemma constructor_batch_log_sorted (deployer : address) :
  batch_log_sorted (constructor deployer).
Proof. split; cbn; constructor. Qed.

Lemma StronglySorted_lt_NoDup (l : list Z) :
  StronglySorted Z.lt l -> NoDup l.
Proof.
  induction 1 as [|x l _ IH Hall]; constructor; [|done].
  intros Hin. rewrite Forall_forall in Hall. specialize (Hall _ Hin). lia.
Qed.

(** Batch calls leave the owner and the pause flag alone. *)
Lemma run_batch_calls_frame s txs :
  Forall (fun tx => tx.2 = OpenBatch \/ tx.2 = CloseBatch) txs ->
  owner (run s txs) = owner s /\ paused (run s txs) = paused s.
Proof.
  revert s. induction txs as [|tx txs IH]; intros s Hall; [done|].
  inversion Hall as [|? ? Htx Hrest]; subst. rewrite run_cons.
  destruct (IH (exec s tx) Hrest) as [-> ->].
  destruct tx as [env c]. cbn [snd] in Htx.
  destruct Htx as [-> | ->]; run_contract; done.
Qed.

(** *** Decryption contexts *)

Lemma contexts_at_insert s (rid rid' : uint256) (ctx : DecryptionContext) :
  default zeroDecryptionContext (<[rid := ctx]> (decryptionContexts s) !! rid')
  = if decide (rid = rid') then ctx else decryptionContexts_at s rid'.
Proof.
  unfold decryptionContexts_at. rewrite lookup_insert.
  by destruct (decide (rid = rid')).
Qed.

(** Only the request that is handed [rid] and the callback for [rid] touch
    the context stored under [rid]. *)
Lemma exec_context_frame s tx (rid : uint256) :
  request_id tx <> Some rid -> is_callback_for rid tx.2 = false ->
  decryptionContexts (exec s tx) !! rid = decryptionContexts s !! rid.
Proof.
  destruct tx as [env c]. unfold request_id. cbn [fst snd]. intros Hreq Hcb.
  destruct c; run_contract; cbn; try done.
  - apply lookup_insert_ne. congruence.
  - apply lookup_insert_ne. cbn in Hcb. by apply bool_decide_eq_false in Hcb.
Qed.

Lemma run_context_frame s txs (rid : uint256) :
  Forall (fun tx => request_id tx <> Some rid
                    /\ is_callback_for rid tx.2 = false) txs ->
  decryptionContexts (run s txs) !! rid = decryptionContexts s !! rid.
Proof.
  revert s. induction txs as [|tx txs IH]; intros s Hall; [done|].
  inversion Hall as [|? ? [Hreq Hcb] Hrest]; subst. rewrite run_cons.
  rewrite IH by done. by apply exec_context_frame.
Qed.

(** A processed context stays processed unless the oracle hands the same
    identifier out again. *)
Lemma exec_processed_stable s tx (rid : uint256) :
  request_id tx <> Some rid ->
  processed (decryptionContexts_at s rid) = true ->
  processed (decryptionContexts_at (exec s tx) rid) = true.
Proof.
  destruct tx as [env c]. unfold request_id. cbn [fst snd]. intros Hreq Hp.
  destruct c; run_contract; cbn; try done.
  - unfold decryptionContexts_at in *. cbn.
    rewrite lookup_insert_ne; [done | congruence].
  - unfold decryptionContexts_at at 1. cbn. rewrite contexts_at_insert.
    by destruct (decide (requestId = rid)).
Qed.

Lemma run_processed_stable s txs (rid : uint256) :
  rid ∉ request_ids txs ->
  processed (decryptionContexts_at s rid) = true ->
  processed (decryptionContexts_at (run s txs) rid) = true.
Proof.
  revert s. induction txs as [|tx txs IH]; intros s Hnot Hp; [done|].
  rewrite run_cons. unfold request_ids in Hnot. cbn in Hnot.
  apply IH.
  - unfold request_ids. destruct (request_id tx); [|done].
    by apply not_elem_of_cons in Hnot as [_ ?].
  - apply exec_processed_stable; [|done].
    intros E. rewrite E in Hnot. apply Hnot. left.
Qed.

Lemma constructor_log_consistent (deployer : address) :
  log_consistent (constructor deployer) [].
Proof.
  intros rid. split.
  - cbn. rewrite lookup_empty. by intros [? ?].
  - reflexivity.
Qed.

Lemma log_consistent_weaken s (issued issued' : list uint256) :
  issued ⊆ issued' -> log_consistent s issued -> log_consistent s issued'.
Proof.
  intros Hsub H rid. destruct (H rid) as [H1 H2]. split; [|done]. auto.
Qed.

Lemma exec_log_consistent s tx (issued : list uint256) :
  (forall rid, request_id tx = Some rid -> rid ∉ issued) ->
  log_consistent s issued ->
  log_consistent (exec s tx)
    (issued ++ from_option (fun r => [r]) [] (request_id tx)).
Proof.
  intros Hfresh Hinv.
  assert (Hweak : log_consistent s
            (issued ++ from_option (fun r => [r]) [] (request_id tx))).
  { eapply log_consistent_weaken; [|done]. set_solver. }
  destruct tx as [env c]. unfold request_id in *. cbn [fst snd] in *.
  destruct c; run_contract; try exact Hweak;
    intros rid; destruct (Hinv rid) as [Hin Hcount];
    unfold decryptionContexts_at in *; cbn [decryptionContexts events
      add_event set_owner set_isProvider set_paused set_cooldownSeconds
      set_lastSubmissionTime set_lastDecryptionRequestTime set_currentBatchId
      set_batchOpen set_loanApplication set_decryptionContext];
    rewrite ?completed_count_snoc; cbn [is_completion from_option];
    rewrite ?Nat.add_0_r, ?app_nil_r;
    try (split; [done | done]).
  - (* a request stores a fresh, unprocessed context *)
    specialize (Hfresh _ eq_refl).
    rewrite lookup_insert.
    destruct (decide (oracle_requestId env = rid)) as [Heq|Hne].
    + subst rid. split; [set_solver|]. cbn.
      destruct (decryptionContexts s !! oracle_requestId env) eqn:E.
      * exfalso. apply Hfresh, Hin. by eexists.
      * exact Hcount.
    + split; [set_solver | done].
  - (* a callback that commits *)
    rewrite lookup_insert.
    destruct (decide (requestId = rid)) as [->|Hne].
    + rewrite bool_decide_eq_true_2 by done. cbn. split.
      * intros _. apply Hin.
        destruct (decryptionContexts s !! rid) eqn:E; [by eexists|].
        cbn in *. lia.
      * rewrite Hcount.
        by destruct (processed (default zeroDecryptionContext
                                  (decryptionContexts s !! rid))).
    + rewrite bool_decide_eq_false_2 by done. rewrite Nat.add_0_r.
      split; [done | done].
Qed.

Lemma run_log_consistent s txs (issued : list uint256) :
  NoDup (issued ++ request_ids txs) ->
  log_consistent s issued ->
  log_consistent (run s txs) (issued ++ request_ids txs).
Proof.
  revert s issued. induction txs as [|tx txs IH]; intros s issued Hnd Hinv.
  - unfold request_ids. cbn. by rewrite app_nil_r.
  - rewrite run_cons.
    assert (Hsplit : request_ids (tx :: txs) =
              from_option (fun r => [r]) [] (request_id tx) ++ request_ids txs).
    { unfold request_ids. cbn. by destruct (request_id tx). }
    rewrite Hsplit in *. rewrite app_assoc in *.
    apply IH; [done|]. apply exec_log_consistent; [|done].
    intros rid E. rewrite E in Hnd. cbn in Hnd.
    apply NoDup_app in Hnd as [Hnd _].
    apply NoDup_app in Hnd as (_ & Hdisj & _).
    intros Hin. apply (Hdisj _ Hin). left.
Qed.

End Traces.

(** ** The claims *)

Section Claims.

Context {platform : Platform}.

Implicit Types (s : State) (env : Env) (txs : list (Env * Call)).

(** C1: exactly-once delivery.  On any history [pre] from deployment in
    which the oracle never hands one identifier to two requests, the first
    callback for [rid] that passes the replay guard, the batch range check
    and the commitment check, with a verified proof over a payload of three
    decodable words, commits: it marks the context processed and appends one
    [DecryptionCompleted] event, where the log held none for [rid].  After
    any continuation [post], every callback for [rid] reverts with
    [ReplayAttempt] whatever its payload, the log holds exactly one
    completion event for [rid], and at most one for any identifier. *)
Theorem callback_exactly_once (deployer : address)
    (pre post : list (Env * Call)) env (rid : uint256) (ct pf : bytes)
    (a l p : Z) :
  let s := run (constructor deployer) pre in
  let ctx := decryptionContexts_at s rid in
  NoDup (request_ids (pre ++ post)) ->
  processed ctx = false ->
  batchId ctx <> 0 /\ batchId ctx <= currentBatchId s ->
  _hashCiphertexts (handles s (batchId ctx)) = stateHash ctx ->
  checkSignatures rid ct pf = true ->
  decodeCleartexts ct = Some (a, l, p) ->
  exists s1,
    call env (MyCallback rid ct pf) s = Ok s1
    /\ processed (decryptionContexts_at s1 rid) = true
    /\ events s1 = events s ++ [DecryptionCompleted rid (batchId ctx) a l p]
    /\ completed_count rid (events s) = 0%nat
    /\ (forall env' ct' pf',
          call env' (MyCallback rid ct' pf') (run s1 post)
          = Revert ReplayAttempt)
    /\ completed_count rid (events (run s1 post)) = 1%nat
    /\ (forall rid' : uint256,
          (completed_count rid' (events (run s1 post)) <= 1)%nat).
Proof.
  intros s ctx Hnd Hproc Hrange Hhash Hsig Hdec.
  unfold request_ids in Hnd. rewrite omap_app in Hnd.
  fold (request_ids pre) in Hnd. fold (request_ids post) in Hnd.
  assert (Hinv : log_consistent s (request_ids pre)).
  { apply (run_log_consistent _ _ []); [|apply constructor_log_consistent].
    by apply NoDup_app in Hnd as [? _]. }
  pose proof (myCallback_commits s env rid ct pf a l p
                Hproc Hrange Hhash Hsig Hdec) as Hcall.
  fold ctx in Hcall.
  set (s1 := add_event _ _) in Hcall.
  assert (Hs1 : s1 = exec s (env, MyCallback rid ct pf)).
  { unfold exec. cbn [fst snd]. by rewrite Hcall. }
  assert (Hp1 : processed (decryptionContexts_at s1 rid) = true).
  { unfold decryptionContexts_at, s1. cbn. by rewrite lookup_insert_eq. }
  assert (Hissued : rid ∈ request_ids pre).
  { apply (Hinv rid). subst ctx. unfold decryptionContexts_at in Hrange.
    destruct (decryptionContexts s !! rid); [by eexists | cbn in Hrange; lia]. }
  assert (Hnot : rid ∉ request_ids post).
  { apply NoDup_app in Hnd as (_ & Hdisj & _). by apply Hdisj. }
  assert (Hinv1 : log_consistent s1 (request_ids pre)).
  { rewrite Hs1.
    pose proof (exec_log_consistent s (env, MyCallback rid ct pf)
                  (request_ids pre)) as H.
    cbn in H. rewrite app_nil_r in H. apply H; [done | exact Hinv]. }
  pose proof (run_log_consistent s1 post _ Hnd Hinv1) as Hinv2.
  pose proof (run_processed_stable s1 post rid Hnot Hp1) as Hp2.
  exists s1. repeat split; try done.
  - destruct (Hinv rid) as [_ ->]. fold ctx. by rewrite Hproc.
  - intros env' ct' pf'. by apply myCallback_replay.
  - destruct (Hinv2 rid) as [_ ->]. by rewrite Hp2.
  - intros rid'. destruct (Hinv2 rid') as [_ ->].
    destruct (processed (decryptionContexts_at _ rid')); lia.
Qed.

(** C2: commitment binding.  A request that commits stores, under the
    identifier the oracle handed back, the hash of the batch's three
    handles.  After any transactions that neither reuse the identifier nor
    are the callback for it: if the hash recomputed over the batch's current
    handles differs from the stored one, the callback reverts with
    [StateMismatch]; if the three handles are the ones hashed at request
    time, the callback commits for any verified proof over a payload of
    three decodable words. *)
Theorem commitment_binding (s0 s1 : State) (env0 env : Env) (bid : uint256)
    txs (ct pf : bytes) :
  let rid := oracle_requestId env0 in
  let s2 := run s1 txs in
  call env0 (RequestLoanApproval bid) s0 = Ok s1 ->
  Forall (fun tx => request_id tx <> Some rid
                    /\ is_callback_for rid tx.2 = false) txs ->
  stateHash (decryptionContexts_at s2 rid) = _hashCiphertexts (handles s0 bid)
  /\ (_hashCiphertexts (handles s2 bid) <> _hashCiphertexts (handles s0 bid) ->
        call env (MyCallback rid ct pf) s2 = Revert StateMismatch)
  /\ (handles s2 bid = handles s0 bid ->
        checkSignatures rid ct pf = true ->
        forall a l p, decodeCleartexts ct = Some (a, l, p) ->
        exists s3,
          call env (MyCallback rid ct pf) s2 = Ok s3
          /\ processed (decryptionContexts_at s3 rid) = true
          /\ events s3 = events s2 ++ [DecryptionCompleted rid bid a l p]).
Proof.
  intros rid s2 Hreq Hquiet.
  apply requestLoanApproval_commits in Hreq as [Hrange Hs1].
  assert (Hctx : decryptionContexts_at s2 rid =
                 mkDecryptionContext bid (_hashCiphertexts (handles s0 bid))
                   false).
  { unfold decryptionContexts_at, s2. rewrite run_context_frame by done.
    rewrite Hs1. cbn. by rewrite lookup_insert_eq. }
  assert (Hcur : bid <> 0 /\ bid <= currentBatchId s2).
  { split; [lia|]. etrans; [|apply run_currentBatchId_mono].
    rewrite Hs1. cbn. lia. }
  split; [by rewrite Hctx|]. split.
  - intros Hdiff. apply myCallback_mismatch; rewrite Hctx; done.
  - intros Hsame Hsig a l p Hdec.
    pose proof (myCallback_commits s2 env rid ct pf a l p) as Hcall.
    cbv zeta in Hcall. rewrite Hctx in Hcall. cbn in Hcall.
    rewrite Hcall; [|done|done|by rewrite Hsame|done|done].
    eexists. split; [done|]. split; [|done].
    unfold decryptionContexts_at. cbn. by rewrite lookup_insert_eq.
Qed.

(** C3, as the code has it: the callback on a request identifier under
    which no context was stored reverts with [InvalidBatch], because the
    unwritten context reads as batch 0, unprocessed. *)
Theorem callback_unknown_request_invalid_batch
    (s : State) (env : Env) (rid : uint256) (cleartexts proof : bytes) :
  decryptionContexts s !! rid = None ->
  call env (MyCallback rid cleartexts proof) s = Revert InvalidBatch
  /\ spec_name InvalidBatch = Some Spec.InvalidBatch
  /\ exec s (env, MyCallback rid cleartexts proof) = s.
Proof.
  intros H. apply callback_default_context in H.
  run_contract; rewrite H in *; cbn in *; try done; lia.
Qed.


(** C4: atomicity.  A call that reverts has written nothing by the time
    it reverts, so the storage and the log are the ones it started from; a
    call that succeeds has made every write of the operation and appended
    its event, the two silent successes apart ([addProvider] on a provider
    and [removeProvider] on a non-provider change nothing and emit
    nothing). *)
Theorem operations_atomic s env (c : Call) :
  match dispatch env c s with
  | Abort e s_at_revert =>
      s_at_revert = s /\ call env c s = Revert e /\ exec s (env, c) = s
  | Done _ s' =>
      call env c s = Ok s' /\ exec s (env, c) = s' /\ effect env c s s'
  end.
Proof.
  destruct c; cbn [effect]; run_contract; try done;
    repeat split; try done;
    unfold isProvider_at, lastSubmissionTime_at, lastDecryptionRequestTime_at,
      loanApplications_at, decryptionContexts_at in *; cbn;
    rewrite ?lookup_insert_eq; try done; try congruence.
  match goal with
  | Ha : uint32_word (slice _ 0 32) = Some ?a,
    Hl : uint32_word (slice _ 32 32) = Some ?l,
    Hp : uint32_word (slice _ 64 32) = Some ?p |- _ =>
      exists a, l, p; split;
      [apply decodeCleartexts_words; auto | reflexivity]
  end.
Qed.

(** C5, as the code has it: a submission is never turned away for its
    handles.  For a provider past the guard with a batch open, the call
    commits whatever the three handles are: a record is written at the
    current batch id, holding every supplied handle that is initialized,
    the caller's submission timestamp is stamped and one event is
    appended, the [LoanApplicationSubmitted] event of the caller for the
    current batch id, carrying the three handles of the record. *)
Theorem submit_accepts_any_handles s env (a l p : euint32) :
  isProvider_at s (msg_sender env) = true ->
  paused s = false ->
  lastSubmissionTime_at s (msg_sender env) + cooldownSeconds s
    <= block_timestamp env ->
  block_timestamp env < uint256_limit ->
  batchOpen s = true ->
  exists s' r,
    call env (SubmitLoanApplication a l p) s = Ok s'
    /\ loanApplications s' !! currentBatchId s = Some r
    /\ (isInitialized a = true -> encryptedAssets r = a)
    /\ (isInitialized l = true -> encryptedLiabilities r = l)
    /\ (isInitialized p = true -> encryptedSolvencyProof r = p)
    /\ lastSubmissionTime_at s' (msg_sender env) = block_timestamp env
    /\ length (events s') = S (length (events s))
    /\ events s' =
         events s
         ++ [LoanApplicationSubmitted (msg_sender env) (currentBatchId s)
               (encryptedAssets r) (encryptedLiabilities r)
               (encryptedSolvencyProof r)].
Proof.
  intros Hprov Hpause Hcool Hnow Hopen.
  run_contract; try congruence; try lia;
    (eexists _, _; split; [reflexivity|]; cbn;
     unfold lastSubmissionTime_at; cbn; rewrite !lookup_insert_eq;
     rewrite ?length_app; cbn; repeat split; try done; lia).
Qed.

(** C6, as the code has it: the pause check guards [openBatch],
    [closeBatch], submission and the decryption request, after their role
    check; the five owner-only role mutations check the owner role only and
    succeed while paused, and the callback never reverts with [Paused]. *)
Theorem pause_check_scope s env (c : Call) :
  paused s = true ->
  match c with
  | OpenBatch | CloseBatch =>
      (msg_sender env <> owner s -> call env c s = Revert NotOwner)
      /\ (msg_sender env = owner s -> call env c s = Revert Paused)
  | SubmitLoanApplication _ _ _ | RequestLoanApproval _ =>
      (isProvider_at s (msg_sender env) = false ->
         call env c s = Revert NotProvider)
      /\ (isProvider_at s (msg_sender env) = true ->
           call env c s = Revert Paused)
  | TransferOwnership _ | AddProvider _ | RemoveProvider _ | SetPaused _
  | SetCooldownSeconds _ =>
      (msg_sender env <> owner s -> call env c s = Revert NotOwner)
      /\ (msg_sender env = owner s -> exists s', call env c s = Ok s')
  | MyCallback _ _ _ => call env c s <> Revert Paused
  end.
Proof.
  intros Hpaused.
  destruct c; run_contract;
    try (split; intros; first [done | congruence | by eexists]); done.
Qed.

(** C7: batch ids.  After any transactions from deployment, the ids
    announced by [BatchOpened] increase strictly, so none occurs twice.
    Calling [openBatch] while a batch is open reverts and leaves the
    storage as it was: with [BatchAlreadyOpen] once the guard is passed,
    with the guard's own error otherwise.  In a history of [openBatch] and
    [closeBatch] calls alone the deployer passes the guard, so its
    [openBatch] on an open batch reverts with [BatchAlreadyOpen]. *)
Theorem batch_ids_strictly_increasing (deployer : address) txs env :
  let s := run (constructor deployer) txs in
  StronglySorted Z.lt (opened_ids (events s))
  /\ NoDup (opened_ids (events s))
  /\ (batchOpen s = true ->
        exec s (env, OpenBatch) = s
        /\ call env OpenBatch s =
             Revert (if decide (msg_sender env <> owner s) then NotOwner
                     else if paused s then Paused else BatchAlreadyOpen))
  /\ (Forall (fun tx => tx.2 = OpenBatch \/ tx.2 = CloseBatch) txs ->
        batchOpen s = true -> msg_sender env = deployer ->
        call env OpenBatch s = Revert BatchAlreadyOpen).
Proof.
  intros s.
  destruct (run_batch_log_sorted (constructor deployer) txs
              (constructor_batch_log_sorted deployer)) as [Hsorted _].
  fold s in Hsorted.
  split; [done|]. split; [by apply StronglySorted_lt_NoDup|]. split.
  - intros Hopen. run_contract; done.
  - intros Hbatch Hopen Hsender.
    destruct (run_batch_calls_frame (constructor deployer) txs Hbatch)
      as [Howner Hpaused].
    fold s in Howner, Hpaused. cbn in Howner, Hpaused.
    run_contract; congruence.
Qed.

(** C8: the decryption request past the guard.  For a provider, with the
    system not paused and the decryption cooldown elapsed: a batch id that
    is 0 or above the counter reverts with [InvalidBatch]; otherwise an
    uninitialized handle in the record reverts with the error the
    specification calls [RecordIncomplete]; otherwise the call commits,
    storing an unprocessed context with the commitment hash under the
    oracle's identifier, stamping the caller's decryption timestamp and
    appending one [DecryptionRequested] event. *)
Theorem requestLoanApproval_after_guard s env (bid : uint256) :
  isProvider_at s (msg_sender env) = true ->
  paused s = false ->
  lastDecryptionRequestTime_at s (msg_sender env) + cooldownSeconds s
    <= block_timestamp env ->
  block_timestamp env < uint256_limit ->
  let r := call env (RequestLoanApproval bid) s in
  let initialized := forallb isInitialized (handles s bid) in
  (bid = 0 \/ bid > currentBatchId s -> r = Revert InvalidBatch)
  /\ (~ (bid = 0 \/ bid > currentBatchId s) -> initialized = false ->
        r = Revert (ErrorString "Ciphertext not initialized")
        /\ spec_name (ErrorString "Ciphertext not initialized")
           = Some Spec.RecordIncomplete
        /\ exec s (env, RequestLoanApproval bid) = s)
  /\ (~ (bid = 0 \/ bid > currentBatchId s) -> initialized = true ->
        exists s',
          r = Ok s'
          /\ decryptionContexts_at s' (oracle_requestId env) =
               mkDecryptionContext bid (_hashCiphertexts (handles s bid)) false
          /\ lastDecryptionRequestTime_at s' (msg_sender env)
             = block_timestamp env
          /\ events s' = events s
                          ++ [DecryptionRequested (oracle_requestId env) bid]).
Proof.
  intros Hprov Hpause Hcool Hnow r initialized. subst r initialized.
  unfold handles. cbn [forallb].
  run_contract; try congruence; try lia;
    repeat split; try done; try (intros; cbn in *; congruence).
  intros _ _. eexists. split; [reflexivity|].
  unfold decryptionContexts_at, lastDecryptionRequestTime_at. cbn.
  by rewrite !lookup_insert_eq.
Qed.

(** C9: the two cooldown clocks are independent.  A submission that
    commits sets the submission timestamp of the caller, leaves the
    submission timestamp of every other address and the decryption-request
    timestamp of every address as they were; a decryption request that
    commits does the same with the roles of the two clocks exchanged. *)
Theorem cooldown_clocks_independent s s' env :
  (forall a l p,
     call env (SubmitLoanApplication a l p) s = Ok s' ->
     forall who : address,
       lastSubmissionTime_at s' who =
         (if decide (who = msg_sender env) then block_timestamp env
          else lastSubmissionTime_at s who)
       /\ lastDecryptionRequestTime_at s' who
          = lastDecryptionRequestTime_at s who)
  /\ (forall bid,
        call env (RequestLoanApproval bid) s = Ok s' ->
        forall who : address,
          lastDecryptionRequestTime_at s' who =
            (if decide (who = msg_sender env) then block_timestamp env
             else lastDecryptionRequestTime_at s who)
          /\ lastSubmissionTime_at s' who = lastSubmissionTime_at s who).
Proof.
  split.
  - intros a l p ->%submitLoanApplication_commits who.
    unfold lastSubmissionTime_at, lastDecryptionRequestTime_at. cbn.
    rewrite lookup_insert. split; [|done].
    destruct (decide (msg_sender env = who)), (decide (who = msg_sender env));
      done.
  - intros bid [_ ->]%requestLoanApproval_commits who.
    unfold lastSubmissionTime_at, lastDecryptionRequestTime_at. cbn.
    rewrite lookup_insert. split; [|done].
    destruct (decide (msg_sender env = who)), (decide (who = msg_sender env));
      done.
Qed.

(** C10: [transferOwnership] called by the owner commits for every
    address, the zero address included, paused or not: the owner becomes
    the given address and [OwnershipTransferred] is appended.  After a
    transfer to the zero address the owner stays zero through all later
    transactions, whose senders are accounts and so not the zero address,
    and every owner-only call by such a sender reverts with [NotOwner]. *)
Theorem transferOwnership_unchecked s env (newOwner : address) :
  msg_sender env = owner s ->
  exists s',
    call env (TransferOwnership newOwner) s = Ok s'
    /\ owner s' = newOwner
    /\ paused s' = paused s
    /\ events s' = events s ++ [OwnershipTransferred (owner s) newOwner]
    /\ (newOwner = 0 ->
         forall txs, Forall (fun tx => msg_sender tx.1 <> 0) txs ->
         owner (run s' txs) = 0
         /\ forall env' (c : Call),
              msg_sender env' <> 0 -> owner_only c = true ->
              call env' c (run s' txs) = Revert NotOwner).
Proof.
  intros Hsender.
  exists (add_event (OwnershipTransferred (owner s) newOwner)
            (set_owner newOwner s)).
  split; [run_contract; done|]. repeat split; try done.
  - by apply run_owner_zero.
  - intros env' c Hne Hc. apply owner_only_stranger; [done|].
    rewrite run_owner_zero; done.
Qed.

End Claims.

(** ** The scenarios of the specification, run on the concrete deployment *)

(** Scenario A: open, submit, request, callback with a verified proof: the
    log ends with the completion event carrying the decoded values. *)
Example scenario_A :
  events (run (platform := Demo.platform) Demo.requested [Demo.callback])
  = [OwnershipTransferred 0 1; ProviderAdded 2; BatchOpened 1;
     LoanApplicationSubmitted 2 1 11 12 13; DecryptionRequested 7 1;
     DecryptionCompleted 7 1 5 3 1].
Proof. vm_compute; reflexivity. Qed.

(** Scenario B: a second submission overwrites the record first. *)
Example scenario_B :
  call (platform := Demo.platform) Demo.callback.1 Demo.callback.2
    (exec (platform := Demo.platform) Demo.requested Demo.resubmission)
  = Revert StateMismatch.
Proof. vm_compute; reflexivity. Qed.

(** Scenario C: the same callback delivered twice. *)
Example scenario_C :
  call (platform := Demo.platform) Demo.callback.1 Demo.callback.2
    (exec (platform := Demo.platform) Demo.requested Demo.callback)
  = Revert ReplayAttempt.
Proof. vm_compute; reflexivity. Qed.

(** Scenario D: a second request by the provider inside the cooldown. *)
Example scenario_D :
  call (platform := Demo.platform) (Demo.env 2 130 8) (RequestLoanApproval 1)
    Demo.requested = Revert CooldownActive.
Proof. vm_compute; reflexivity. Qed.

(** Scenario E: batch id 0, and a batch id above the counter. *)
Example scenario_E :
  call (platform := Demo.platform) (Demo.env 2 100 7) (RequestLoanApproval 0)
    Demo.submitted = Revert InvalidBatch
  /\ call (platform := Demo.platform) (Demo.env 2 100 7)
       (RequestLoanApproval 2) Demo.submitted = Revert InvalidBatch.
Proof. split; vm_compute; reflexivity. Qed.

(** A verified proof over an empty payload: the decode reverts and the
    context stays pending. *)
Example callback_empty_payload :
  call (platform := Demo.platform) (Demo.env 9 300 0) (MyCallback 7 [] [x2a])
    Demo.requested = Revert RevertNoData
  /\ processed (decryptionContexts_at
                  (exec (platform := Demo.platform) Demo.requested
                     (Demo.env 9 300 0, MyCallback 7 [] [x2a])) 7) = false.
Proof. split; vm_compute; reflexivity. Qed.

(** ** The claims on the concrete deployment *)

Lemma callback_exactly_once_witness :
  let pre := Demo.setup ++ [Demo.request] in
  let post := [Demo.callback; (Demo.env 2 500 8, RequestLoanApproval 1)] in
  NoDup (request_ids (pre ++ post))
  /\ exists s1,
      call (platform := Demo.platform) (Demo.env 9 300 0)
        (MyCallback 7 Demo.cleartexts [x2a]) Demo.requested = Ok s1
      /\ events s1 = events Demo.requested ++ [DecryptionCompleted 7 1 5 3 1]
      /\ call (platform := Demo.platform) (Demo.env 9 700 0)
           (MyCallback 7 Demo.cleartexts [x2a])
           (run (platform := Demo.platform) s1 post) = Revert ReplayAttempt
      /\ completed_count 7
           (events (run (platform := Demo.platform) s1 post)) = 1%nat.
Proof.
  intros pre post.
  assert (Hnd : NoDup (request_ids (pre ++ post))).
  { apply (bool_decide_unpack _). vm_compute. exact I. }
  split; [exact Hnd|].
  destruct (callback_exactly_once (platform := Demo.platform) 1 pre post
              (Demo.env 9 300 0) 7 Demo.cleartexts [x2a] 5 3 1 Hnd)
    as (s1 & Hcall & _ & Hev & _ & Hreplay & Hcount & _).
  - vm_compute; reflexivity.
  - vm_compute. split; [discriminate | discriminate].
  - vm_compute; reflexivity.
  - vm_compute; reflexivity.
  - vm_compute; reflexivity.
  - exists s1. split; [exact Hcall|]. split; [exact Hev|].
    split; [apply Hreplay | exact Hcount].
Defined.

Lemma commitment_binding_witness :
  (call (platform := Demo.platform) (Demo.env 2 100 7) (RequestLoanApproval 1)
     Demo.submitted = Ok Demo.requested)
  /\ call (platform := Demo.platform) (Demo.env 9 300 0)
       (MyCallback 7 Demo.cleartexts [x2a])
       (run (platform := Demo.platform) Demo.requested [Demo.resubmission])
     = Revert StateMismatch
  /\ exists s3,
       call (platform := Demo.platform) (Demo.env 9 300 0)
         (MyCallback 7 Demo.cleartexts [x2a])
         (run (platform := Demo.platform) Demo.requested
            [(Demo.env 1 150 0, CloseBatch)]) = Ok s3
       /\ processed (decryptionContexts_at s3 7) = true.
Proof.
  assert (Hreq : call (platform := Demo.platform) (Demo.env 2 100 7)
                   (RequestLoanApproval 1) Demo.submitted = Ok Demo.requested)
    by (vm_compute; reflexivity).
  split; [exact Hreq|]. split.
  - destruct (commitment_binding (platform := Demo.platform) Demo.submitted
                Demo.requested (Demo.env 2 100 7) (Demo.env 9 300 0) 1
                [Demo.resubmission] Demo.cleartexts [x2a] Hreq)
      as (_ & Hmismatch & _).
    + repeat constructor; vm_compute; discriminate.
    + apply Hmismatch. vm_compute. discriminate.
  - destruct (commitment_binding (platform := Demo.platform) Demo.submitted
                Demo.requested (Demo.env 2 100 7) (Demo.env 9 300 0) 1
                [(Demo.env 1 150 0, CloseBatch)] Demo.cleartexts [x2a] Hreq)
      as (_ & _ & Hcommit).
    + repeat constructor; vm_compute; discriminate.
    + destruct (Hcommit ltac:(vm_compute; reflexivity)
                  ltac:(vm_compute; reflexivity) 5 3 1
                  ltac:(vm_compute; reflexivity)) as (s3 & Hcall & Hp & _).
      exists s3. split; [exact Hcall | exact Hp].
Defined.

(** C3, as the specification words it, fails: the callback on an
    identifier that was never issued reverts with [InvalidBatch], which the
    specification does not call [UnknownRequest]. *)
Lemma callback_unknown_request_counterexample :
  decryptionContexts Demo.requested !! 8 = None
  /\ call (platform := Demo.platform) (Demo.env 9 300 0)
       (MyCallback 8 Demo.cleartexts [x2a]) Demo.requested
     = Revert InvalidBatch
  /\ spec_name InvalidBatch <> Some Spec.UnknownRequest.
Proof. split; [|split]; [vm_compute; reflexivity.. | discriminate]. Qed.

Lemma callback_unknown_request_invalid_batch_witness :
  decryptionContexts Demo.requested !! 8 = None
  /\ call (platform := Demo.platform) (Demo.env 9 300 0)
       (MyCallback 8 [] []) Demo.requested = Revert InvalidBatch.
Proof.
  assert (H : decryptionContexts Demo.requested !! 8 = None)
    by (vm_compute; reflexivity).
  split; [exact H|].
  exact (proj1 (callback_unknown_request_invalid_batch
                  (platform := Demo.platform) Demo.requested
                  (Demo.env 9 300 0) 8 [] [] H)).
Defined.

(** C4, as the specification words it, fails on its success half:
    [addProvider] on an address that is a provider already, and
    [removeProvider] on one that is not, succeed without writing anything
    and without an event. *)
Lemma operations_atomic_counterexample :
  isProvider_at Demo.submitted 2 = true
  /\ (exists s',
        call (platform := Demo.platform) (Demo.env 1 130 0) (AddProvider 2)
          Demo.submitted = Ok s'
        /\ events s' = events Demo.submitted /\ s' = Demo.submitted)
  /\ isProvider_at Demo.submitted 3 = false
  /\ (exists s',
        call (platform := Demo.platform) (Demo.env 1 130 0) (RemoveProvider 3)
          Demo.submitted = Ok s'
        /\ events s' = events Demo.submitted /\ s' = Demo.submitted).
Proof.
  split; [vm_compute; reflexivity|]. split.
  { exists Demo.submitted. split; [vm_compute; reflexivity|]. by split. }
  split; [vm_compute; reflexivity|].
  exists Demo.submitted. split; [vm_compute; reflexivity|]. by split.
Qed.

(** C5, as the specification words it, fails: a submission whose first
    handle is the null handle commits and its record is stored. *)
Lemma submit_uninitialized_counterexample :
  isInitialized 0 = false
  /\ exists s',
       call (platform := Demo.platform) (Demo.env 2 100 0)
         (SubmitLoanApplication 0 12 13) Demo.opened = Ok s'
       /\ loanApplications s' !! 1 = Some (mkLoanApplication 0 12 13)
       /\ events s' = events Demo.opened
                        ++ [LoanApplicationSubmitted 2 1 0 12 13].
Proof.
  split; [reflexivity|]. eexists. split; [vm_compute; reflexivity|].
  split; vm_compute; reflexivity.
Qed.

Lemma submit_accepts_any_handles_witness :
  isInitialized 0 = false
  /\ exists s' r,
       call (platform := Demo.platform) (Demo.env 2 100 0)
         (SubmitLoanApplication 0 12 13) Demo.opened = Ok s'
       /\ loanApplications s' !! 1 = Some r
       /\ encryptedLiabilities r = 12
       /\ encryptedSolvencyProof r = 13
       /\ events s' =
            events Demo.opened
            ++ [LoanApplicationSubmitted 2 1 (encryptedAssets r)
                  (encryptedLiabilities r) (encryptedSolvencyProof r)].
Proof.
  split; [reflexivity|].
  destruct (submit_accepts_any_handles (platform := Demo.platform) Demo.opened
              (Demo.env 2 100 0) 0 12 13)
    as (s' & r & Hcall & Hrec & _ & Hl & Hp & _ & _ & Hev).
  - vm_compute; reflexivity.
  - vm_compute; reflexivity.
  - vm_compute; discriminate.
  - vm_compute; reflexivity.
  - vm_compute; reflexivity.
  - exists s', r. split; [exact Hcall|]. split; [exact Hrec|].
    split; [apply Hl; reflexivity|]. split; [apply Hp; reflexivity|].
    exact Hev.
Defined.

(** C6, as the specification words it, fails: while the system is paused
    the owner transfers ownership, and the call commits. *)
Lemma pause_check_counterexample :
  paused Demo.halted = true
  /\ exists s',
       call (platform := Demo.platform) (Demo.env 1 130 0)
         (TransferOwnership 5) Demo.halted = Ok s'
       /\ owner s' = 5.
Proof.
  split; [vm_compute; reflexivity|].
  eexists. split; vm_compute; reflexivity.
Qed.

Lemma pause_check_scope_witness :
  paused Demo.halted = true
  /\ call (platform := Demo.platform) (Demo.env 1 130 0) CloseBatch Demo.halted
     = Revert Paused
  /\ call (platform := Demo.platform) (Demo.env 2 300 0)
       (SubmitLoanApplication 31 32 33) Demo.halted = Revert Paused.
Proof.
  assert (H : paused Demo.halted = true) by (vm_compute; reflexivity).
  split; [exact H|]. split.
  - apply (pause_check_scope (platform := Demo.platform) Demo.halted
             (Demo.env 1 130 0) CloseBatch H).
    vm_compute; reflexivity.
  - apply (pause_check_scope (platform := Demo.platform) Demo.halted
             (Demo.env 2 300 0) (SubmitLoanApplication 31 32 33) H).
    vm_compute; reflexivity.
Defined.

Lemma batch_ids_strictly_increasing_witness :
  let s := run (platform := Demo.platform) (constructor 1) Demo.batch_calls in
  opened_ids (events s) = [1; 2]
  /\ StronglySorted Z.lt (opened_ids (events s))
  /\ batchOpen s = true
  /\ call (platform := Demo.platform) (Demo.env 1 130 0) OpenBatch s
     = Revert BatchAlreadyOpen
  /\ exec (platform := Demo.platform) s (Demo.env 1 130 0, OpenBatch) = s.
Proof.
  intros s.
  destruct (batch_ids_strictly_increasing (platform := Demo.platform) 1
              Demo.batch_calls (Demo.env 1 130 0))
    as (Hsorted & _ & Hfail & Hbatch).
  assert (Hopen : batchOpen s = true) by (vm_compute; reflexivity).
  split; [vm_compute; reflexivity|]. split; [exact Hsorted|].
  split; [exact Hopen|]. split.
  - apply Hbatch; [|exact Hopen|reflexivity].
    unfold Demo.batch_calls.
    repeat (constructor; [cbn; auto|]). constructor.
  - apply Hfail. exact Hopen.
Defined.

Lemma requestLoanApproval_after_guard_witness :
  exists s',
    call (platform := Demo.platform) (Demo.env 2 100 7) (RequestLoanApproval 1)
      Demo.submitted = Ok s'
    /\ events s' = events Demo.submitted ++ [DecryptionRequested 7 1].
Proof.
  destruct (requestLoanApproval_after_guard (platform := Demo.platform)
              Demo.submitted (Demo.env 2 100 7) 1)
    as (_ & _ & Hcommit).
  - vm_compute; reflexivity.
  - vm_compute; reflexivity.
  - vm_compute; discriminate.
  - vm_compute; reflexivity.
  - destruct Hcommit as (s' & Hcall & _ & _ & Hev).
    + vm_compute. intros [H | H]; discriminate.
    + vm_compute; reflexivity.
    + exists s'. split; [exact Hcall | exact Hev].
Defined.

Lemma cooldown_clocks_independent_witness :
  let s1 := exec (platform := Demo.platform) Demo.opened
              (Demo.env 2 100 0, SubmitLoanApplication 11 12 13) in
  let s2 := exec (platform := Demo.platform) s1
              (Demo.env 2 400 7, RequestLoanApproval 1) in
  (lastSubmissionTime_at s1 2 = 100
   /\ lastDecryptionRequestTime_at s1 2
      = lastDecryptionRequestTime_at Demo.opened 2)
  /\ (lastDecryptionRequestTime_at s2 2 = 400
      /\ lastSubmissionTime_at s2 2 = lastSubmissionTime_at s1 2).
Proof.
  intros s1 s2. split.
  - apply (proj1 (cooldown_clocks_independent (platform := Demo.platform)
                    Demo.opened s1 (Demo.env 2 100 0)) 11 12 13
             ltac:(vm_compute; reflexivity) 2).
  - apply (proj2 (cooldown_clocks_independent (platform := Demo.platform)
                    s1 s2 (Demo.env 2 400 7)) 1
             ltac:(vm_compute; reflexivity) 2).
Defined.

Lemma transferOwnership_unchecked_witness :
  paused Demo.halted = true
  /\ exists s',
       call (platform := Demo.platform) (Demo.env 1 130 0)
         (TransferOwnership 0) Demo.halted = Ok s'
       /\ owner s' = 0
       /\ call (platform := Demo.platform) (Demo.env 1 140 0) (SetPaused false)
            (run (platform := Demo.platform) s'
               [(Demo.env 1 135 0, TransferOwnership 1)])
          = Revert NotOwner.
Proof.
  split; [vm_compute; reflexivity|].
  destruct (transferOwnership_unchecked (platform := Demo.platform) Demo.halted
              (Demo.env 1 130 0) 0)
    as (s' & Hcall & Howner & _ & _ & Hforever).
  - vm_compute; reflexivity.
  - exists s'. split; [exact Hcall|]. split; [exact Howner|].
    apply (Hforever eq_refl [(Demo.env 1 135 0, TransferOwnership 1)]).
    + repeat constructor; vm_compute; discriminate.
    + vm_compute; discriminate.
    + reflexivity.
Defined.

(** ** Further properties of the contract *)

Section Gating.

Context {platform : Platform}.

Implicit Types (s : State) (env : Env) (txs : list (Env * Call)).

(** X1: submission gating.  [submitLoanApplication] commits exactly when
    the caller is a provider, the system is not paused, the cooldown
    deadline [lastSubmissionTime + cooldownSeconds] fits a [uint256] and has
    been reached, and a batch is open. *)
Theorem submitLoanApplication_gating s env (a l p : euint32) :
  (exists s', call env (SubmitLoanApplication a l p) s = Ok s') <->
  isProvider_at s (msg_sender env) = true
  /\ paused s = false
  /\ lastSubmissionTime_at s (msg_sender env) + cooldownSeconds s
     < uint256_limit
  /\ lastSubmissionTime_at s (msg_sender env) + cooldownSeconds s
     <= block_timestamp env
  /\ batchOpen s = true.
Proof.
  split.
  - intros [s' Hcall]. revert Hcall. run_contract; intros [=]; repeat split;
      first [done | lia].
  - intros (Hprov & Hpause & Hfit & Hcool & Hopen).
    run_contract; try congruence; try lia; by eexists.
Qed.

(** X2: the decryption request is gated the same way, on its own clock,
    and further needs a batch id between 1 and the counter whose record has
    three initialized handles. *)
Theorem requestLoanApproval_gating s env (bid : uint256) :
  (exists s', call env (RequestLoanApproval bid) s = Ok s') <->
  isProvider_at s (msg_sender env) = true
  /\ paused s = false
  /\ lastDecryptionRequestTime_at s (msg_sender env) + cooldownSeconds s
     < uint256_limit
  /\ lastDecryptionRequestTime_at s (msg_sender env) + cooldownSeconds s
     <= block_timestamp env
  /\ bid <> 0 /\ bid <= currentBatchId s
  /\ forallb isInitialized (handles s bid) = true.
Proof.
  unfold handles. cbn [forallb]. split.
  - intros [s' Hcall]. revert Hcall. run_contract; intros [=]; repeat split;
      first [done | lia | by repeat (apply andb_true_intro; split)].
  - intros (Hprov & Hpause & Hfit & Hcool & Hne & Hle & Hinit).
    apply andb_prop in Hinit as [Ha Hinit].
    apply andb_prop in Hinit as [Hl Hinit].
    apply andb_prop in Hinit as [Hp _].
    run_contract; try congruence; try lia; by eexists.
Qed.

(** X3: a batch that received no submission cannot be decrypted: past the
    guard and inside the batch range, a request for a batch id whose record
    was never written reverts with the string error of
    [_requireInitialized] and changes nothing. *)
Theorem requestLoanApproval_unwritten_record s env (bid : uint256) :
  isProvider_at s (msg_sender env) = true ->
  paused s = false ->
  lastDecryptionRequestTime_at s (msg_sender env) + cooldownSeconds s
    <= block_timestamp env ->
  block_timestamp env < uint256_limit ->
  bid <> 0 -> bid <= currentBatchId s ->
  loanApplications s !! bid = None ->
  call env (RequestLoanApproval bid) s
  = Revert (ErrorString "Ciphertext not initialized")
  /\ exec s (env, RequestLoanApproval bid) = s.
Proof.
  intros Hprov Hpause Hcool Hnow Hne Hle Hnone.
  assert (Hzero : loanApplications_at s bid = zeroLoanApplication).
  { unfold loanApplications_at. by rewrite Hnone. }
  run_contract; try congruence; try lia; try done.
  exfalso.
  match goal with
  | H : isInitialized (encryptedAssets _) = true |- _ =>
      rewrite Hzero in H; vm_compute in H; discriminate
  end.
Qed.

(** The storage a committed submission leaves behind, field by field. *)
Lemma submitLoanApplication_after s s' env (a l p : euint32) :
  call env (SubmitLoanApplication a l p) s = Ok s' ->
  isProvider_at s (msg_sender env) = true /\ paused s = false
  /\ batchOpen s = true
  /\ isProvider s' = isProvider s /\ paused s' = paused s
  /\ cooldownSeconds s' = cooldownSeconds s
  /\ currentBatchId s' = currentBatchId s
  /\ lastDecryptionRequestTime s' = lastDecryptionRequestTime s
  /\ lastSubmissionTime_at s' (msg_sender env) = block_timestamp env
  /\ loanApplications_at s' (currentBatchId s) = mkLoanApplication a l p.
Proof.
  intros Hsub.
  assert (Hpre : isProvider_at s (msg_sender env) = true /\ paused s = false
                 /\ batchOpen s = true).
  { revert Hsub. run_contract; by intros [=]. }
  destruct Hpre as (? & ? & ?).
  apply submitLoanApplication_commits in Hsub. subst s'.
  unfold lastSubmissionTime_at, loanApplications_at. cbn.
  rewrite !lookup_insert_eq. done.
Qed.

Lemma requestLoanApproval_after s s' env (bid : uint256) :
  call env (RequestLoanApproval bid) s = Ok s' ->
  isProvider_at s (msg_sender env) = true /\ paused s = false
  /\ isProvider s' = isProvider s /\ paused s' = paused s
  /\ cooldownSeconds s' = cooldownSeconds s
  /\ lastDecryptionRequestTime_at s' (msg_sender env) = block_timestamp env.
Proof.
  intros Hreq.
  assert (Hpre : isProvider_at s (msg_sender env) = true /\ paused s = false).
  { revert Hreq. run_contract; by intros [=]. }
  destruct Hpre as (? & ?).
  apply requestLoanApproval_commits in Hreq as [_ ->].
  unfold lastDecryptionRequestTime_at. cbn.
  rewrite !lookup_insert_eq. done.
Qed.

(** X4: a submission with a null handle is accepted and makes its batch
    undecryptable: after it commits, every request for that batch that
    passes the guard reverts with the string error of
    [_requireInitialized]. *)
Theorem null_handle_blocks_decryption s s' env env' (a l p : euint32) :
  call env (SubmitLoanApplication a l p) s = Ok s' ->
  a = 0 \/ l = 0 \/ p = 0 ->
  currentBatchId s <> 0 ->
  isProvider_at s' (msg_sender env') = true ->
  lastDecryptionRequestTime_at s' (msg_sender env') + cooldownSeconds s'
    <= block_timestamp env' ->
  block_timestamp env' < uint256_limit ->
  call env' (RequestLoanApproval (currentBatchId s)) s'
  = Revert (ErrorString "Ciphertext not initialized").
Proof.
  intros Hsub Hnull Hcur Hprov Hcool Hnow.
  apply submitLoanApplication_after in Hsub
    as (_ & Hpause & _ & _ & Hpause' & _ & Hcur' & _ & _ & Hrec).
  rewrite Hpause in Hpause'.
  run_contract; try done; try congruence; try lia.
  exfalso. rewrite Hrec in *. cbn in *.
  repeat match goal with
         | H : isInitialized _ = true |- _ =>
             apply bool_decide_eq_true in H
         end.
  destruct Hnull as [? | [? | ?]]; done.
Qed.

(** X5: the rate limit.  Right after a committed submission at time [t],
    a further submission by the same sender before [t + cooldownSeconds]
    reverts with [CooldownActive]; right after a committed decryption
    request, so does a further request. *)
Theorem cooldown_enforced s s' env env' :
  msg_sender env' = msg_sender env ->
  block_timestamp env' < block_timestamp env + cooldownSeconds s ->
  block_timestamp env + cooldownSeconds s < uint256_limit ->
  (forall a l p a' l' p',
     call env (SubmitLoanApplication a l p) s = Ok s' ->
     call env' (SubmitLoanApplication a' l' p') s' = Revert CooldownActive)
  /\ (forall bid bid',
        call env (RequestLoanApproval bid) s = Ok s' ->
        call env' (RequestLoanApproval bid') s' = Revert CooldownActive).
Proof.
  intros Hsender Hearly Hfit. split.
  - intros a l p a' l' p' Hsub.
    apply submitLoanApplication_after in Hsub
      as (Hprov & Hpause & _ & Hprov' & Hpause' & Hcd & _ & _ & Hlast & _).
    assert (Hp : isProvider_at s' (msg_sender env) = true)
      by (unfold isProvider_at in *; by rewrite Hprov').
    rewrite Hpause in Hpause'. rewrite <- Hsender in Hp, Hlast.
    run_contract; try done; try congruence; lia.
  - intros bid bid' Hreq.
    apply requestLoanApproval_after in Hreq
      as (Hprov & Hpause & Hprov' & Hpause' & Hcd & Hlast).
    assert (Hp : isProvider_at s' (msg_sender env) = true)
      by (unfold isProvider_at in *; by rewrite Hprov').
    rewrite Hpause in Hpause'. rewrite <- Hsender in Hp, Hlast.
    run_contract; try done; try congruence; lia.
Qed.

End Gating.

Section Callback.

Context {platform : Platform}.

Implicit Types (s : State) (env : Env) (txs : list (Env * Call)).

(** X6: what the callback never touches.  A callback that commits leaves
    the owner, the providers, the pause flag, the cooldown, both timestamp
    maps, the batch counter with its flag, the loan records and every other
    context as they were; in its own context, which was pending, only the
    processed flag changes. *)
Theorem myCallback_frame s s' env (rid : uint256) (ct pf : bytes) :
  call env (MyCallback rid ct pf) s = Ok s' ->
  owner s' = owner s /\ isProvider s' = isProvider s
  /\ paused s' = paused s /\ cooldownSeconds s' = cooldownSeconds s
  /\ lastSubmissionTime s' = lastSubmissionTime s
  /\ lastDecryptionRequestTime s' = lastDecryptionRequestTime s
  /\ currentBatchId s' = currentBatchId s /\ batchOpen s' = batchOpen s
  /\ loanApplications s' = loanApplications s
  /\ (forall rid', rid' <> rid ->
        decryptionContexts s' !! rid' = decryptionContexts s !! rid')
  /\ processed (decryptionContexts_at s rid) = false
  /\ decryptionContexts s' !! rid =
       Some (mkDecryptionContext (batchId (decryptionContexts_at s rid))
               (stateHash (decryptionContexts_at s rid)) true).
Proof.
  run_contract; intros [= <-]; cbn; repeat split; try done.
  - intros rid' Hne. by apply lookup_insert_ne.
  - by rewrite lookup_insert_eq.
Qed.

(** X7: a rejected proof does not consume the request.  On a pending
    context whose commitment matches, a callback whose proof fails
    [checkSignatures] reverts with [DecryptionFailed] and leaves the storage
    as it was, and a later callback with a verified proof over a decodable
    payload commits. *)
Theorem rejected_proof_keeps_request_pending s env env' (rid : uint256)
    (ct pf ct' pf' : bytes) (a l p : Z) :
  let ctx := decryptionContexts_at s rid in
  processed ctx = false ->
  batchId ctx <> 0 /\ batchId ctx <= currentBatchId s ->
  _hashCiphertexts (handles s (batchId ctx)) = stateHash ctx ->
  checkSignatures rid ct pf = false ->
  checkSignatures rid ct' pf' = true ->
  decodeCleartexts ct' = Some (a, l, p) ->
  call env (MyCallback rid ct pf) s = Revert DecryptionFailed
  /\ exec s (env, MyCallback rid ct pf) = s
  /\ exists s',
       call env' (MyCallback rid ct' pf') (exec s (env, MyCallback rid ct pf))
       = Ok s'
       /\ processed (decryptionContexts_at s' rid) = true
       /\ events s' = events s ++ [DecryptionCompleted rid (batchId ctx) a l p].
Proof.
  intros ctx Hproc Hrange Hhash Hbad Hgood Hdec.
  assert (Hfail : call env (MyCallback rid ct pf) s = Revert DecryptionFailed).
  { subst ctx. unfold handles in Hhash. unfold_contract.
    rewrite Hproc, Hbad. repeat split_step; try done; lia. }
  assert (Hsame : exec s (env, MyCallback rid ct pf) = s).
  { unfold exec. cbn [fst snd]. by rewrite Hfail. }
  split; [done|]. split; [done|]. rewrite Hsame.
  rewrite (myCallback_commits s env' rid ct' pf' a l p) by done.
  eexists. split; [done|]. split; [|done].
  unfold decryptionContexts_at. cbn. by rewrite lookup_insert_eq.
Qed.

Lemma slice_short (b : bytes) (start len : nat) :
  (length b < start + len)%nat -> slice b start len = None.
Proof. intros H. unfold slice. destruct (decide _); [lia | done]. Qed.

(** X8: a payload shorter than 96 bytes is never delivered.  Even with a
    verified proof on a pending context whose commitment matches, the
    callback reverts in the decoding of the third word at the latest and
    the context stays pending. *)
Theorem short_payload_rejected s env (rid : uint256) (ct pf : bytes) :
  let ctx := decryptionContexts_at s rid in
  processed ctx = false ->
  batchId ctx <> 0 /\ batchId ctx <= currentBatchId s ->
  _hashCiphertexts (handles s (batchId ctx)) = stateHash ctx ->
  checkSignatures rid ct pf = true ->
  (length ct < 96)%nat ->
  decodeCleartexts ct = None
  /\ call env (MyCallback rid ct pf) s = Revert RevertNoData
  /\ processed
       (decryptionContexts_at (exec s (env, MyCallback rid ct pf)) rid)
     = false.
Proof.
  intros ctx Hproc Hrange Hhash Hsig Hlen.
  assert (Hdec : decodeCleartexts ct = None).
  { unfold decodeCleartexts. rewrite (slice_short ct 64 32) by lia.
    destruct (uint32_word (slice ct 0 32)); [|done]. cbn.
    destruct (uint32_word (slice ct 32 32)); done. }
  pose proof (myCallback_malformed s env rid ct pf
                Hproc Hrange Hhash Hsig Hdec) as Hcall.
  split; [done|]. split; [done|].
  unfold exec. cbn [fst snd]. by rewrite Hcall.
Qed.

(** X9: the last submission wins.  Two submissions that commit one after
    the other into the same open batch leave the second one's handles as
    the batch's record, and no other batch's record is touched by either. *)
Theorem resubmission_replaces_record s s1 s2 env1 env2
    (a l p a' l' p' : euint32) :
  call env1 (SubmitLoanApplication a l p) s = Ok s1 ->
  call env2 (SubmitLoanApplication a' l' p') s1 = Ok s2 ->
  loanApplications_at s1 (currentBatchId s) = mkLoanApplication a l p
  /\ loanApplications_at s2 (currentBatchId s) = mkLoanApplication a' l' p'
  /\ forall bid, bid <> currentBatchId s ->
       loanApplications s2 !! bid = loanApplications s !! bid.
Proof.
  intros ->%submitLoanApplication_commits ->%submitLoanApplication_commits.
  unfold loanApplications_at. cbn. rewrite !lookup_insert_eq.
  repeat split; try done.
  intros bid Hne. by rewrite !lookup_insert_ne.
Qed.

End Callback.

Section History.

Context {platform : Platform}.

Implicit Types (s : State) (tx : Env * Call) (txs : list (Env * Call)).

Lemma closed_ids_snoc (l : list Event) (e : Event) :
  closed_ids (l ++ [e])
  = closed_ids l ++ from_option (fun id => [id]) [] (closed_id e).
Proof. unfold closed_ids. rewrite omap_app. cbn. by destruct (closed_id e). Qed.

Lemma seqZ_snoc (n : Z) : 0 <= n -> seqZ 1 (n + 1) = seqZ 1 n ++ [n + 1].
Proof.
  intros Hn. rewrite <- (Z2Nat.id n) at 1 by done.
  replace (Z.of_nat (Z.to_nat n) + 1) with (Z.of_nat (S (Z.to_nat n))) by lia.
  rewrite seqZ_S, Z2Nat.id by done. f_equal. f_equal. lia.
Qed.

Lemma exec_batch_log_exact s tx :
  batch_log_exact s -> batch_log_exact (exec s tx).
Proof.
  intros (Hpos & Hopened & Hclosed). destruct tx as [env c].
  destruct c; run_contract; unfold batch_log_exact; cbn;
    rewrite ?opened_ids_snoc, ?closed_ids_snoc; cbn; rewrite ?app_nil_r;
    try match goal with H : batchOpen s = _ |- _ => rewrite ?H in * end;
    rewrite ?app_nil_r in *; try done.
  (* openBatch is what is left *)
  split; [lia|]. split.
  - rewrite Hopened. by rewrite seqZ_snoc.
  - by rewrite <- Hclosed.
Qed.

(** X10: the batch log is the counter spelled out.  After any
    transactions from deployment the counter is not negative, the
    [BatchOpened] events announce exactly the ids 1 to [currentBatchId] in
    order, and the [BatchClosed] events announce the same ids in the same
    order, the last one left out while its batch is open: no batch is
    opened before the one before it is closed. *)
Theorem batch_log_spells_counter (deployer : address) txs :
  batch_log_exact (run (constructor deployer) txs).
Proof.
  assert (H0 : batch_log_exact (constructor deployer)) by done.
  revert H0. generalize (constructor deployer).
  induction txs as [|tx txs IH]; intros s Hs; [done|].
  rewrite run_cons. by apply IH, exec_batch_log_exact.
Qed.

Lemma exec_batch_sealed s tx (bid : uint256) :
  batch_sealed s bid ->
  batch_sealed (exec s tx) bid
  /\ loanApplications (exec s tx) !! bid = loanApplications s !! bid.
Proof.
  unfold batch_sealed. intros Hsealed. destruct tx as [env c].
  destruct c; run_contract; cbn;
    (split;
     [ destruct Hsealed as [? | [? ?]];
       [ left; lia
       | first [ congruence | right; split; [done | congruence] | left; lia ] ]
     | first [ done
             | apply lookup_insert_ne;
               destruct Hsealed as [? | [_ ?]]; [lia | congruence] ] ]).
Qed.

Lemma run_batch_sealed s txs (bid : uint256) :
  batch_sealed s bid ->
  batch_sealed (run s txs) bid
  /\ loanApplications (run s txs) !! bid = loanApplications s !! bid.
Proof.
  revert s. induction txs as [|tx txs IH]; intros s Hs; [done|].
  rewrite run_cons. destruct (exec_batch_sealed s tx bid Hs) as [Hs' <-].
  by apply IH.
Qed.

(** X11: a sealed batch keeps its record.  Once a batch id is below the
    counter, or equals it with the batch closed, no transaction of any
    sender ever changes the record stored under it, and the batch stays
    sealed. *)
Theorem sealed_batch_record_immutable s txs (bid : uint256) :
  bid < currentBatchId s \/ (bid = currentBatchId s /\ batchOpen s = false) ->
  loanApplications (run s txs) !! bid = loanApplications s !! bid
  /\ batch_sealed (run s txs) bid.
Proof.
  intros Hsealed. by destruct (run_batch_sealed s txs bid Hsealed).
Qed.

(** X12: a request on a sealed batch cannot be invalidated.  When a
    decryption request commits for a sealed batch, then after any
    transactions that neither reuse its identifier nor are its callback,
    the callback with a verified proof over a decodable payload commits:
    [StateMismatch] is out of reach. *)
Theorem sealed_batch_request_completes s0 s1 env0 env (bid : uint256) txs
    (ct pf : bytes) (a l p : Z) :
  let rid := oracle_requestId env0 in
  let s2 := run s1 txs in
  call env0 (RequestLoanApproval bid) s0 = Ok s1 ->
  bid < currentBatchId s0 \/ (bid = currentBatchId s0 /\ batchOpen s0 = false) ->
  Forall (fun tx => request_id tx <> Some rid
                    /\ is_callback_for rid tx.2 = false) txs ->
  checkSignatures rid ct pf = true ->
  decodeCleartexts ct = Some (a, l, p) ->
  exists s3,
    call env (MyCallback rid ct pf) s2 = Ok s3
    /\ processed (decryptionContexts_at s3 rid) = true
    /\ events s3 = events s2 ++ [DecryptionCompleted rid bid a l p].
Proof.
  intros rid s2 Hreq Hsealed Hquiet Hsig Hdec.
  apply requestLoanApproval_commits in Hreq as [Hrange Hs1].
  assert (Hsealed1 : batch_sealed s1 bid) by (rewrite Hs1; exact Hsealed).
  destruct (run_batch_sealed s1 txs bid Hsealed1) as [_ Hrec].
  fold s2 in Hrec.
  assert (Hhandles : handles s2 bid = handles s0 bid).
  { unfold handles, loanApplications_at. rewrite Hrec, Hs1. done. }
  assert (Hctx : decryptionContexts_at s2 rid =
                 mkDecryptionContext bid (_hashCiphertexts (handles s0 bid))
                   false).
  { unfold decryptionContexts_at, s2. rewrite run_context_frame by done.
    rewrite Hs1. cbn. by rewrite lookup_insert_eq. }
  assert (Hcur : bid <> 0 /\ bid <= currentBatchId s2).
  { split; [lia|]. etrans; [|apply run_currentBatchId_mono].
    rewrite Hs1. cbn. lia. }
  pose proof (myCallback_commits s2 env rid ct pf a l p) as Hcall.
  cbv zeta in Hcall. rewrite Hctx in Hcall. cbn in Hcall.
  rewrite Hcall; [|done|done|by rewrite Hhandles|done|done].
  eexists. split; [done|]. split; [|done].
  unfold decryptionContexts_at. cbn. by rewrite lookup_insert_eq.
Qed.

End History.

Section Ledger.

Context {platform : Platform}.

Implicit Types (s : State) (tx : Env * Call) (txs : list (Env * Call)).

Lemma be_value_nonneg (b : bytes) : 0 <= be_value b.
Proof.
  unfold be_value.
  assert (H : forall acc, 0 <= acc ->
            0 <= fold_left (fun acc x => acc * 256 + Z.of_N (Byte.to_N x))
                   b acc).
  { induction b as [|x b IH]; intros acc Hacc; [done|].
    cbn [fold_left]. apply IH. lia. }
  by apply H.
Qed.

Lemma uint32_word_range (word : option bytes) (v : Z) :
  uint32_word word = Some v -> 0 <= v < uint32_limit.
Proof.
  destruct word as [w|]; [|done]. cbn.
  destruct (decide _) as [[_ Hlt]|]; [|done]. intros [= <-].
  split; [apply be_value_nonneg | done].
Qed.

Lemma snoc_split {A} (l l1 l2 : list A) (e x : A) :
  l ++ [e] = l1 ++ x :: l2 ->
  (l2 = [] /\ l = l1 /\ e = x)
  \/ exists l2', l2 = l2' ++ [e] /\ l = l1 ++ x :: l2'.
Proof.
  destruct l2 as [|y l2 _] using rev_ind.
  - intros H. apply app_inj_tail in H as [-> ->]. by left.
  - intros H. rewrite app_comm_cons, app_assoc in H.
    apply app_inj_tail in H as [-> ->]. right. by eexists.
Qed.

Lemma completions_snoc_other (l : list Event) (e : Event) :
  (forall rid bid a b c, e <> DecryptionCompleted rid bid a b c) ->
  completions_answer_requests l -> completions_answer_requests (l ++ [e]).
Proof.
  intros Hother Hl l1 l2 rid bid a b c Heq.
  apply snoc_split in Heq as [(_ & _ & ->) | (l2' & -> & Heq)].
  - by destruct (Hother rid bid a b c).
  - by apply (Hl l1 l2').
Qed.

Lemma exec_contexts_valid s tx :
  contexts_valid s /\ completions_answer_requests (events s) ->
  contexts_valid (exec s tx) /\ completions_answer_requests (events (exec s tx)).
Proof.
  intros [Hctx Hlog]. destruct tx as [env c].
  assert (Hgrow : forall e, contexts_valid (add_event e s)).
  { intros e rid ctx Hsome. destruct (Hctx rid ctx Hsome) as (? & ? & ?).
    cbn. rewrite elem_of_app. auto. }
  destruct c; run_contract; try (split; [done | done]);
    try (split;
         [ intros rid ctx Hsome; cbn in Hsome;
           destruct (Hctx rid ctx Hsome) as (? & ? & ?); cbn;
           rewrite ?elem_of_app; repeat split; auto; lia
         | cbn; apply completions_snoc_other; [done | done] ]).
  - (* a request stores a context whose batch exists *)
    split.
    + intros rid ctx. cbn. rewrite lookup_insert.
      destruct (decide (oracle_requestId env = rid)) as [<-|Hne].
      * intros [= <-]. cbn. rewrite elem_of_app, list_elem_of_singleton.
        repeat split; [lia | lia | by right].
      * intros Hsome. destruct (Hctx rid ctx Hsome) as (? & ? & ?).
        rewrite elem_of_app. auto.
    + cbn. apply completions_snoc_other; [done | done].
  - (* a callback that commits answers a stored request *)
    assert (Hstored : exists ctx0,
              decryptionContexts s !! requestId = Some ctx0
              /\ decryptionContexts_at s requestId = ctx0).
    { unfold decryptionContexts_at in *.
      destruct (decryptionContexts s !! requestId) as [ctx0|]; [by eexists|].
      cbn in *. lia. }
    destruct Hstored as (ctx0 & Hsome0 & Hat).
    destruct (Hctx requestId ctx0 Hsome0) as (Hne0 & Hle0 & Hin0).
    rewrite Hat in *. split.
    + intros rid ctx. cbn. rewrite lookup_insert.
      destruct (decide (requestId = rid)) as [<-|Hne].
      * intros [= <-]. cbn. rewrite elem_of_app. auto.
      * intros Hsome. destruct (Hctx rid ctx Hsome) as (? & ? & ?).
        rewrite elem_of_app. auto.
    + cbn. intros l1 l2 rid bid a b c Heq.
      apply snoc_split in Heq as [(_ & Hl1 & Heq) | (l2' & -> & Hl)].
      * subst l1. injection Heq as <- <- <- <- <-.
        split; [done|].
        repeat split;
          match goal with
          | H : uint32_word _ = Some ?v |- _ <= ?v =>
              apply (uint32_word_range _ _ H)
          | H : uint32_word _ = Some ?v |- ?v < _ =>
              apply (uint32_word_range _ _ H)
          end.
      * by apply (Hlog l1 l2').
Qed.

Lemma run_contexts_valid s txs :
  contexts_valid s /\ completions_answer_requests (events s) ->
  contexts_valid (run s txs)
  /\ completions_answer_requests (events (run s txs)).
Proof.
  revert s. induction txs as [|tx txs IH]; intros s Hs; [done|].
  rewrite run_cons. by apply IH, exec_contexts_valid.
Qed.

Lemma constructor_contexts_valid (deployer : address) :
  contexts_valid (constructor deployer)
  /\ completions_answer_requests (events (constructor deployer)).
Proof.
  split.
  - intros rid ctx. cbn. by rewrite lookup_empty.
  - intros l1 l2 rid bid a b c. cbn. intros Heq.
    destruct l1 as [|? [|? ?]]; discriminate.
Qed.


(** X14: no completion without a request.  After any transactions from
    deployment, each [DecryptionCompleted] event in the log comes after a
    [DecryptionRequested] event with the same request identifier and batch
    id, and its three values are 32-bit. *)
Theorem completions_follow_requests (deployer : address) txs
    (l1 l2 : list Event) (rid bid a b c : Z) :
  events (run (constructor deployer) txs)
  = l1 ++ DecryptionCompleted rid bid a b c :: l2 ->
  DecryptionRequested rid bid ∈ l1
  /\ 0 <= a < uint32_limit /\ 0 <= b < uint32_limit /\ 0 <= c < uint32_limit.
Proof.
  destruct (run_contexts_valid _ txs (constructor_contexts_valid deployer))
    as [_ Hlog].
  apply Hlog.
Qed.

End Ledger.

Section Authority.

Context {platform : Platform}.

Implicit Types (s : State) (tx : Env * Call) (txs : list (Env * Call)).

Lemma exec_admin_frame s tx :
  msg_sender tx.1 <> owner s ->
  owner (exec s tx) = owner s /\ isProvider (exec s tx) = isProvider s
  /\ paused (exec s tx) = paused s
  /\ cooldownSeconds (exec s tx) = cooldownSeconds s
  /\ currentBatchId (exec s tx) = currentBatchId s
  /\ batchOpen (exec s tx) = batchOpen s.
Proof.
  destruct tx as [env c]. cbn [fst]. intros Hne.
  destruct c; run_contract; done.
Qed.

(** X15: the administrative state belongs to the owner.  Through any
    transactions none of which is sent by the owner, whatever they call,
    the owner, the provider flags, the pause flag, the cooldown and the
    batch counter with its open flag stay as they were. *)
Theorem admin_state_owner_only s txs :
  Forall (fun tx => msg_sender tx.1 <> owner s) txs ->
  owner (run s txs) = owner s /\ isProvider (run s txs) = isProvider s
  /\ paused (run s txs) = paused s
  /\ cooldownSeconds (run s txs) = cooldownSeconds s
  /\ currentBatchId (run s txs) = currentBatchId s
  /\ batchOpen (run s txs) = batchOpen s.
Proof.
  revert s. induction txs as [|tx txs IH]; intros s Hall; [done|].
  inversion Hall as [|? ? Htx Hrest]; subst. rewrite run_cons.
  destruct (exec_admin_frame s tx Htx) as (Ho & Hp & Hq & Hc & Hb & Hf).
  rewrite <- Ho in Hrest. destruct (IH _ Hrest) as (-> & -> & -> & -> & -> & ->).
  done.
Qed.

Lemma exec_stranger s tx :
  msg_sender tx.1 <> owner s ->
  isProvider_at s (msg_sender tx.1) = false ->
  is_callback tx.2 = false ->
  exec s tx = s.
Proof.
  destruct tx as [env c]. cbn [fst snd]. intros Hne Hprov Hcb.
  destruct c; try done; run_contract; first [done | congruence].
Qed.

(** X16: an address that is neither the owner nor a provider can change
    the storage through the callback only: any sequence of other calls by
    such addresses leaves the storage, the event log included, exactly as
    it was. *)
Theorem strangers_change_nothing s txs :
  Forall (fun tx => msg_sender tx.1 <> owner s
                    /\ isProvider_at s (msg_sender tx.1) = false
                    /\ is_callback tx.2 = false) txs ->
  run s txs = s.
Proof.
  induction txs as [|tx txs IH]; intros Hall; [done|].
  inversion Hall as [|? ? (Hne & Hprov & Hcb) Hrest]; subst.
  rewrite run_cons, exec_stranger by done. by apply IH.
Qed.

Lemma exec_before_owner (deployer : address) tx :
  msg_sender tx.1 <> deployer ->
  exec (constructor deployer) tx = constructor deployer.
Proof.
  destruct tx as [env c]. cbn [fst]. intros Hne.
  assert (Hprov : forall a, isProvider_at (constructor deployer) a = false).
  { intros a. unfold isProvider_at. cbn. by rewrite lookup_empty. }
  assert (Hctx : forall rid, decryptionContexts_at (constructor deployer) rid
                             = zeroDecryptionContext).
  { intros rid. unfold decryptionContexts_at. cbn. by rewrite lookup_empty. }
  destruct c; run_contract; rewrite ?Hprov, ?Hctx in *; cbn in *;
    first [done | congruence | lia].
Qed.

(** X17: nothing happens before the owner acts.  Deployment registers no
    provider, the deployer included, and stores no context: transactions
    by anyone but the deployer, callbacks included, leave the freshly
    deployed storage as it is. *)
Theorem nothing_before_owner_acts (deployer : address) txs :
  Forall (fun tx => msg_sender tx.1 <> deployer) txs ->
  run (constructor deployer) txs = constructor deployer.
Proof.
  induction txs as [|tx txs IH]; intros Hall; [done|].
  inversion Hall as [|? ? Hne Hrest]; subst.
  rewrite run_cons, exec_before_owner by done. by apply IH.
Qed.

Lemma replay_snoc (l : list Event) (e : Event) :
  replay (l ++ [e]) = apply_event (replay l) e.
Proof. unfold replay. by rewrite fold_left_app. Qed.

Lemma exec_replay s tx :
  view_of s = replay (events s) ->
  view_of (exec s tx) = replay (events (exec s tx)).
Proof.
  intros Hview. destruct tx as [env c].
  destruct c; run_contract; try done;
    cbn [events add_event set_owner set_isProvider set_paused
         set_cooldownSeconds set_lastSubmissionTime
         set_lastDecryptionRequestTime set_currentBatchId set_batchOpen
         set_loanApplication set_decryptionContext];
    rewrite replay_snoc, <- Hview; reflexivity.
Qed.

(** X18: the event log tells the storage.  After any transactions from
    deployment, replaying the log event by event from the blank view
    (owner 0, no provider, not paused, cooldown 60, counter 0, closed, no
    record) gives exactly the stored owner, provider flags, pause flag,
    cooldown, batch counter, open flag and loan records. *)
Theorem event_log_replays_storage (deployer : address) txs :
  let s := run (constructor deployer) txs in
  view_of s = replay (events s).
Proof.
  cbv zeta.
  assert (H0 : view_of (constructor deployer)
               = replay (events (constructor deployer))) by done.
  revert H0. generalize (constructor deployer).
  induction txs as [|tx txs IH]; intros s Hs; [done|].
  rewrite run_cons. by apply IH, exec_replay.
Qed.

Lemma exec_context_persists s tx (rid : uint256) (ctx : DecryptionContext) :
  request_id tx <> Some rid ->
  decryptionContexts s !! rid = Some ctx ->
  exists ctx',
    decryptionContexts (exec s tx) !! rid = Some ctx'
    /\ batchId ctx' = batchId ctx /\ stateHash ctx' = stateHash ctx
    /\ (processed ctx = true -> processed ctx' = true).
Proof.
  destruct tx as [env c]. unfold request_id. cbn [fst snd].
  intros Hreq Hsome.
  destruct c; run_contract; cbn; try (by exists ctx).
  - exists ctx. rewrite lookup_insert_ne; [done | congruence].
  - rewrite lookup_insert. destruct (decide (requestId = rid)) as [->|Hne].
    + unfold decryptionContexts_at in *. rewrite Hsome in *. cbn in *.
      by eexists.
    + by exists ctx.
Qed.

(** X19: a context is never deleted and never re-pointed.  Unless the
    oracle hands its identifier to a later request, a stored context stays
    stored through any transactions with the batch id and the commitment
    hash it was created with, and once processed it stays processed. *)
Theorem context_persists s txs (rid : uint256) (ctx : DecryptionContext) :
  rid ∉ request_ids txs ->
  decryptionContexts s !! rid = Some ctx ->
  exists ctx',
    decryptionContexts (run s txs) !! rid = Some ctx'
    /\ batchId ctx' = batchId ctx /\ stateHash ctx' = stateHash ctx
    /\ (processed ctx = true -> processed ctx' = true).
Proof.
  revert s ctx. induction txs as [|tx txs IH]; intros s ctx Hnot Hsome.
  - by exists ctx.
  - rewrite run_cons. unfold request_ids in Hnot. cbn in Hnot.
    destruct (exec_context_persists s tx rid ctx) as (ctx1 & H1 & Hb & Hh & Hp);
      [|done|].
    { intros E. rewrite E in Hnot. apply Hnot. left. }
    destruct (IH (exec s tx) ctx1) as (ctx' & H' & Hb' & Hh' & Hp'); [|done|].
    { unfold request_ids. destruct (request_id tx); [|done].
      by apply not_elem_of_cons in Hnot as [_ ?]. }
    exists ctx'. split; [done|]. split; [congruence|]. split; [congruence|].
    auto.
Qed.

End Authority.

(** ** The further properties on the concrete deployment *)

Lemma requestLoanApproval_unwritten_record_witness :
  loanApplications Demo.opened !! 1 = None
  /\ call (platform := Demo.platform) (Demo.env 2 100 7) (RequestLoanApproval 1)
       Demo.opened = Revert (ErrorString "Ciphertext not initialized").
Proof.
  assert (H : loanApplications Demo.opened !! 1 = None)
    by (vm_compute; reflexivity).
  split; [exact H|].
  apply (requestLoanApproval_unwritten_record (platform := Demo.platform)
           Demo.opened (Demo.env 2 100 7) 1).
  - vm_compute; reflexivity.
  - vm_compute; reflexivity.
  - vm_compute; discriminate.
  - vm_compute; reflexivity.
  - discriminate.
  - vm_compute; discriminate.
  - exact H.
Defined.

Lemma null_handle_blocks_decryption_witness :
  let s' := exec (platform := Demo.platform) Demo.opened
              (Demo.env 2 100 0, SubmitLoanApplication 0 12 13) in
  call (platform := Demo.platform) (Demo.env 2 100 0)
    (SubmitLoanApplication 0 12 13) Demo.opened = Ok s'
  /\ call (platform := Demo.platform) (Demo.env 2 100 7)
       (RequestLoanApproval 1) s'
     = Revert (ErrorString "Ciphertext not initialized").
Proof.
  intros s'.
  assert (H : call (platform := Demo.platform) (Demo.env 2 100 0)
                (SubmitLoanApplication 0 12 13) Demo.opened = Ok s')
    by (vm_compute; reflexivity).
  split; [exact H|].
  apply (null_handle_blocks_decryption (platform := Demo.platform)
           Demo.opened s' (Demo.env 2 100 0) (Demo.env 2 100 7) 0 12 13 H).
  - left; reflexivity.
  - vm_compute; discriminate.
  - vm_compute; reflexivity.
  - vm_compute; discriminate.
  - vm_compute; reflexivity.
Defined.

Lemma cooldown_enforced_witness :
  call (platform := Demo.platform) (Demo.env 2 130 0)
    (SubmitLoanApplication 21 22 23) Demo.submitted = Revert CooldownActive
  /\ call (platform := Demo.platform) (Demo.env 2 130 8)
       (RequestLoanApproval 1) Demo.requested = Revert CooldownActive.
Proof.
  split.
  - apply (proj1 (cooldown_enforced (platform := Demo.platform) Demo.opened
                    Demo.submitted (Demo.env 2 100 0) (Demo.env 2 130 0)
                    eq_refl ltac:(vm_compute; reflexivity)
                    ltac:(vm_compute; reflexivity))
             11 12 13 21 22 23).
    vm_compute; reflexivity.
  - apply (proj2 (cooldown_enforced (platform := Demo.platform) Demo.submitted
                    Demo.requested (Demo.env 2 100 7) (Demo.env 2 130 8)
                    eq_refl ltac:(vm_compute; reflexivity)
                    ltac:(vm_compute; reflexivity))
             1 1).
    vm_compute; reflexivity.
Defined.

Lemma myCallback_frame_witness :
  let s' := exec (platform := Demo.platform) Demo.requested Demo.callback in
  loanApplications s' = loanApplications Demo.requested
  /\ currentBatchId s' = currentBatchId Demo.requested
  /\ decryptionContexts s' !! 7 =
       Some (mkDecryptionContext 1
               (stateHash (decryptionContexts_at Demo.requested 7)) true).
Proof.
  intros s'.
  destruct (myCallback_frame (platform := Demo.platform) Demo.requested s'
              (Demo.env 9 300 0) 7 Demo.cleartexts [x2a])
    as (_ & _ & _ & _ & _ & _ & Hcur & _ & Hrec & _ & _ & Hctx).
  - vm_compute; reflexivity.
  - split; [exact Hrec|]. split; [exact Hcur | exact Hctx].
Defined.

Lemma rejected_proof_keeps_request_pending_witness :
  call (platform := Demo.platform) (Demo.env 9 300 0)
    (MyCallback 7 Demo.cleartexts [x00]) Demo.requested
  = Revert DecryptionFailed
  /\ exists s',
       call (platform := Demo.platform) (Demo.env 9 310 0)
         (MyCallback 7 Demo.cleartexts [x2a])
         (exec (platform := Demo.platform) Demo.requested
            (Demo.env 9 300 0, MyCallback 7 Demo.cleartexts [x00])) = Ok s'
       /\ processed (decryptionContexts_at s' 7) = true.
Proof.
  destruct (rejected_proof_keeps_request_pending (platform := Demo.platform)
              Demo.requested (Demo.env 9 300 0) (Demo.env 9 310 0) 7
              Demo.cleartexts [x00] Demo.cleartexts [x2a] 5 3 1)
    as (Hfail & _ & s' & Hcall & Hp & _).
  - vm_compute; reflexivity.
  - vm_compute. split; discriminate.
  - vm_compute; reflexivity.
  - vm_compute; reflexivity.
  - vm_compute; reflexivity.
  - vm_compute; reflexivity.
  - split; [exact Hfail|]. exists s'. split; [exact Hcall | exact Hp].
Defined.

Lemma short_payload_rejected_witness :
  (length (Demo.word x05 ++ Demo.word x03) < 96)%nat
  /\ call (platform := Demo.platform) (Demo.env 9 300 0)
       (MyCallback 7 (Demo.word x05 ++ Demo.word x03) [x2a]) Demo.requested
     = Revert RevertNoData.
Proof.
  assert (H : (length (Demo.word x05 ++ Demo.word x03) < 96)%nat)
    by (vm_compute; lia).
  split; [exact H|].
  apply (short_payload_rejected (platform := Demo.platform) Demo.requested
           (Demo.env 9 300 0) 7 (Demo.word x05 ++ Demo.word x03) [x2a]).
  - vm_compute; reflexivity.
  - vm_compute. split; discriminate.
  - vm_compute; reflexivity.
  - vm_compute; reflexivity.
  - exact H.
Defined.

Lemma resubmission_replaces_record_witness :
  loanApplications_at Demo.submitted 1 = mkLoanApplication 11 12 13
  /\ loanApplications_at
       (exec (platform := Demo.platform) Demo.submitted Demo.resubmission) 1
     = mkLoanApplication 21 22 23.
Proof.
  destruct (resubmission_replaces_record (platform := Demo.platform)
              Demo.opened Demo.submitted
              (exec (platform := Demo.platform) Demo.submitted
                 Demo.resubmission)
              (Demo.env 2 100 0) (Demo.env 2 200 0) 11 12 13 21 22 23)
    as (H1 & H2 & _).
  - vm_compute; reflexivity.
  - vm_compute; reflexivity.
  - split; [exact H1 | exact H2].
Defined.

Lemma sealed_batch_record_immutable_witness :
  let txs := [(Demo.env 1 160 0, OpenBatch); Demo.resubmission] in
  currentBatchId (run (platform := Demo.platform) Demo.sealed txs) = 2
  /\ loanApplications (run (platform := Demo.platform) Demo.sealed txs) !! 1
     = loanApplications Demo.sealed !! 1.
Proof.
  intros txs. split; [vm_compute; reflexivity|].
  apply (sealed_batch_record_immutable (platform := Demo.platform)
           Demo.sealed txs 1).
  right. split; vm_compute; reflexivity.
Defined.

Lemma sealed_batch_request_completes_witness :
  let s1 := exec (platform := Demo.platform) Demo.sealed
              (Demo.env 2 200 7, RequestLoanApproval 1) in
  let txs := [(Demo.env 1 210 0, OpenBatch); (Demo.env 2 300 0,
               SubmitLoanApplication 21 22 23)] in
  exists s3,
    call (platform := Demo.platform) (Demo.env 9 400 0)
      (MyCallback 7 Demo.cleartexts [x2a])
      (run (platform := Demo.platform) s1 txs) = Ok s3
    /\ processed (decryptionContexts_at s3 7) = true.
Proof.
  intros s1 txs.
  destruct (sealed_batch_request_completes (platform := Demo.platform)
              Demo.sealed s1 (Demo.env 2 200 7) (Demo.env 9 400 0) 1 txs
              Demo.cleartexts [x2a] 5 3 1)
    as (s3 & Hcall & Hp & _).
  - vm_compute; reflexivity.
  - right. split; vm_compute; reflexivity.
  - repeat constructor; vm_compute; discriminate.
  - vm_compute; reflexivity.
  - vm_compute; reflexivity.
  - exists s3. split; [exact Hcall | exact Hp].
Defined.

Lemma completions_follow_requests_witness :
  DecryptionRequested 7 1
  ∈ [OwnershipTransferred 0 1; ProviderAdded 2; BatchOpened 1;
     LoanApplicationSubmitted 2 1 11 12 13; DecryptionRequested 7 1].
Proof.
  apply (completions_follow_requests (platform := Demo.platform) 1
           (Demo.setup ++ [Demo.request; Demo.callback])
           [OwnershipTransferred 0 1; ProviderAdded 2; BatchOpened 1;
            LoanApplicationSubmitted 2 1 11 12 13; DecryptionRequested 7 1]
           [] 7 1 5 3 1).
  vm_compute; reflexivity.
Defined.

Lemma admin_state_owner_only_witness :
  let s := run (platform := Demo.platform) Demo.submitted
             Demo.provider_activity in
  processed (decryptionContexts_at s 7) = false
  /\ loanApplications_at s 1 = mkLoanApplication 21 22 23
  /\ owner s = 1 /\ paused s = false /\ currentBatchId s = 1.
Proof.
  intros s.
  destruct (admin_state_owner_only (platform := Demo.platform) Demo.submitted
              Demo.provider_activity)
    as (Ho & _ & Hp & _ & Hc & _).
  - unfold Demo.provider_activity.
    repeat (constructor; [vm_compute; discriminate|]). constructor.
  - split; [vm_compute; reflexivity|]. split; [vm_compute; reflexivity|].
    split; [exact Ho|]. split; [exact Hp | exact Hc].
Defined.

Lemma strangers_change_nothing_witness :
  run (platform := Demo.platform) Demo.submitted
    (take 4 Demo.stranger_activity) = Demo.submitted.
Proof.
  apply (strangers_change_nothing (platform := Demo.platform)).
  cbn [take Demo.stranger_activity].
  repeat (constructor;
          [split; [vm_compute; discriminate | split; vm_compute; reflexivity]|]).
  constructor.
Defined.

Lemma nothing_before_owner_acts_witness :
  run (platform := Demo.platform) (constructor 1) Demo.stranger_activity
  = constructor 1.
Proof.
  apply (nothing_before_owner_acts (platform := Demo.platform)).
  unfold Demo.stranger_activity.
  repeat (constructor; [vm_compute; discriminate|]). constructor.
Defined.

Lemma context_persists_witness :
  let txs := [Demo.resubmission; Demo.callback;
              (Demo.env 2 500 8, RequestLoanApproval 1)] in
  exists ctx',
    decryptionContexts (run (platform := Demo.platform) Demo.requested txs)
      !! 7 = Some ctx'
    /\ batchId ctx' = 1.
Proof.
  intros txs.
  destruct (context_persists (platform := Demo.platform) Demo.requested txs 7
              (decryptionContexts_at Demo.requested 7))
    as (ctx' & Hsome & Hb & _).
  - vm_compute. intros H. apply list_elem_of_singleton in H. discriminate.
  - vm_compute; reflexivity.
  - exists ctx'. split; [exact Hsome | exact Hb].
Defined.

Section Clocks.

Context {platform : Platform}.

Implicit Types (s : State) (tx : Env * Call) (txs : list (Env * Call)).

Lemma exec_clocks_frame s tx (who : address) :
  msg_sender tx.1 <> who ->
  lastSubmissionTime_at (exec s tx) who = lastSubmissionTime_at s who
  /\ lastDecryptionRequestTime_at (exec s tx) who
     = lastDecryptionRequestTime_at s who.
Proof.
  destruct tx as [env c]. cbn [fst]. intros Hne.
  unfold lastSubmissionTime_at, lastDecryptionRequestTime_at.
  destruct c; run_contract; cbn; rewrite ?lookup_insert_ne; done.
Qed.

(** X20: an address's cooldown clocks are its own.  Through any
    transactions sent by other addresses, the owner's included, the
    submission timestamp and the decryption-request timestamp of an address
    stay as they were. *)
Theorem clocks_move_with_their_address s txs (who : address) :
  Forall (fun tx => msg_sender tx.1 <> who) txs ->
  lastSubmissionTime_at (run s txs) who = lastSubmissionTime_at s who
  /\ lastDecryptionRequestTime_at (run s txs) who
     = lastDecryptionRequestTime_at s who.
Proof.
  revert s. induction txs as [|tx txs IH]; intros s Hall; [done|].
  inversion Hall as [|? ? Htx Hrest]; subst. rewrite run_cons.
  destruct (IH (exec s tx) Hrest) as [-> ->].
  by apply exec_clocks_frame.
Qed.

End Clocks.

Lemma clocks_move_with_their_address_witness :
  let txs := [(Demo.env 1 110 0, AddProvider 3);
              (Demo.env 3 170 0, SubmitLoanApplication 31 32 33);
              (Demo.env 1 180 0, SetCooldownSeconds 5)] in
  lastSubmissionTime_at (run (platform := Demo.platform) Demo.submitted txs) 3
  = 170
  /\ lastSubmissionTime_at (run (platform := Demo.platform) Demo.submitted txs) 2
     = lastSubmissionTime_at Demo.submitted 2.
Proof.
  intros txs. split; [vm_compute; reflexivity|].
  apply (clocks_move_with_their_address (platform := Demo.platform)
           Demo.submitted txs 2).
  repeat (constructor; [vm_compute; discriminate|]). constructor.
Defined.
